(** * react-cognito: the authentication / federation flows of [auth.js]

    A shallow embedding of the promise-returning functions of the
    authentication module ([emailVerificationIsMandatory],
    [sendAttributeVerificationCode], [getUserAttributes],
    [emailVerificationFlow], [loginOrVerifyEmail], [buildLogins],
    [refreshIdentityCredentials], [performLogin], [authenticate],
    [mkAttrList], [updateAttributes], [registerUser], [changePassword]) and of
    the older callback-style [authenticate] of [Login.jsx].

    The Cognito directory and the credential-exchange service are external:
    they are a record of answers, one per remote call, each call invoking
    exactly one of its callbacks.  Every flow makes each remote call at most
    once, so a function from the call's arguments to its answer loses no
    generality.

    Each flow is a linear chain of dependent steps, so it is run to
    quiescence: a remote call answers at once, a promise is the state it ends
    in ([Pending] when nothing ever settles it), and the trace lists the
    remote calls in the order they are made, together with the rejections
    that reach no handler. *)

From stdpp Require Import gmap strings list fin_maps.

Open Scope string_scope.
Open Scope list_scope.

(* ===================================================================== *)
(** * JavaScript values *)
(* ===================================================================== *)

(** The values a caller can hand over as [config], or the directory as
    [result.userConfirmed]: [undefined], [null], booleans, strings and plain
    objects.  An object is the finite map of its own properties, with
    [Object.prototype] as its prototype; no property holds a function. *)
#[warnings="-register-all"]
Inductive jsval :=
| JUndefined
| JNull
| JBool (b : bool)
| JStr (s : string)
| JObj (props : gmap string jsval).

(** ToBoolean. *)
Definition truthy (v : jsval) : bool :=
  match v with
  | JUndefined | JNull => false
  | JBool b => b
  | JStr s => negb (String.eqb s "")
  | JObj _ => true
  end.

(** [a && b]: the left operand when it is falsy, else the right one. *)
Definition js_and (a : jsval) (b : unit -> jsval) : jsval :=
  if truthy a then b tt else a.

(** [v === false]. *)
Definition strict_eq_false (v : jsval) : bool :=
  match v with
  | JBool false => true
  | _ => false
  end.

(** [v.name] for one of the property names used by the module.  Reading a
    property of [undefined] or [null] throws a TypeError ([None]); a boolean
    or a string has none of these properties; an object answers with its
    own property, [undefined] when it is absent. *)
Definition get_prop (v : jsval) (name : string) : option jsval :=
  match v with
  | JUndefined | JNull => None
  | JBool _ | JStr _ => Some JUndefined
  | JObj props => Some (default JUndefined (props !! name))
  end.

(** The string a template literal interpolates for a value, [None] when the
    conversion throws a TypeError.  An object is converted by its [toString]
    method: the inherited one answers ["[object Object]"]; an own [toString]
    property hides it and, holding no function, is skipped, after which the
    inherited [valueOf] answers the object itself and the conversion
    throws. *)
Definition interpolate (v : jsval) : option string :=
  match v with
  | JUndefined => Some "undefined"
  | JNull => Some "null"
  | JBool true => Some "true"
  | JBool false => Some "false"
  | JStr s => Some s
  | JObj props =>
      match props !! "toString" with
      | Some _ => None
      | None => Some "[object Object]"
      end
  end.

(* ===================================================================== *)
(** * emailVerificationIsMandatory *)
(* ===================================================================== *)

(** [config => !(config && config.mandatoryEmailVerification === false)].
    The property is read only when [config] is truthy, so the read cannot
    throw. *)
Definition emailVerificationIsMandatory (config : jsval) : bool :=
  negb (truthy
    (js_and config (fun _ =>
       match get_prop config "mandatoryEmailVerification" with
       | Some v => JBool (strict_eq_false v)
       | None => JUndefined
       end))).

(* ===================================================================== *)
(** * The collaborators: SDK objects and remote answers *)
(* ===================================================================== *)

(** A user pool handle and [new CognitoUser({ Username, Pool })]. *)
Record CognitoUserPool := { UserPoolId : string; ClientId : string }.
Record CognitoUser := { Username : string; Pool : CognitoUserPool }.

(** [new AuthenticationDetails({ Username, Password })]. *)
Record AuthenticationDetails := { ad_Username : string; ad_Password : string }.

(** The error object a remote call hands to its failure callback. *)
Record error := { code : string; message : string }.

(** [session.getIdToken().getJwtToken()]. *)
Record CognitoIdToken := { getJwtToken : string }.
Record CognitoUserSession := { getIdToken : CognitoIdToken }.

(** An attribute on the wire: [{ Name, Value }].  The directory hands the
    same pairs back as attribute objects read with [getName()] and
    [getValue()]. *)
Record CognitoUserAttribute := { Name : string; Value : string }.
Definition getName (a : CognitoUserAttribute) : string := Name a.
Definition getValue (a : CognitoUserAttribute) : string := Value a.

(** The parameters [buildLogins] hands to [new CognitoIdentityCredentials]. *)
Record CredentialsParams := {
  IdentityPoolId : jsval;
  Logins : gmap string string;
  LoginId : string
}.

(** Which of the callbacks of [user.authenticateUser] the directory calls. *)
Inductive AuthAnswer :=
| onSuccess (session : CognitoUserSession)
| onFailure (err : error)
| mfaRequired
| newPasswordRequired.

(** Which of the callbacks of [user.getAttributeVerificationCode] it calls. *)
Inductive CodeAnswer :=
| codeOnSuccess
| inputVerificationCode
| codeOnFailure (err : error).

(** The result of a successful [userPool.signUp]: [result.user] and the value
    read from [result.userConfirmed] ([JUndefined] when the property is
    absent). *)
Record SignUpResult := { su_user : CognitoUser; userConfirmed : jsval }.

(** The answers of the two remote services.  A node-style callback
    [(err, result)] is a sum: the error on the left, the result on the
    right; [(err)] alone is an optional error. *)
Record Services := {
  user_authenticateUser : CognitoUser -> AuthenticationDetails -> AuthAnswer;
  user_getSession : CognitoUser -> error + CognitoUserSession;
  user_getUserAttributes : CognitoUser -> error + list CognitoUserAttribute;
  user_updateAttributes : CognitoUser -> list CognitoUserAttribute -> option error;
  user_getAttributeVerificationCode : CognitoUser -> string -> CodeAnswer;
  user_changePassword : CognitoUser -> string -> string -> error + string;
  userPool_signUp :
    CognitoUserPool -> string -> string -> list CognitoUserAttribute ->
    error + SignUpResult;
  creds_refresh : CredentialsParams -> option error
}.

(* ===================================================================== *)
(** * Outcomes *)
(* ===================================================================== *)

(** What a promise is rejected with, and what a failure outcome carries: a
    message string, or the TypeError object thrown by a property read on
    [undefined] or [null]. *)
Inductive reason :=
| Message (m : string)
| TypeError (m : string).

(** Modelled from the spec: the [./actions] module ([Action]) is imported but
    is not among the sources.  Each creator is taken to build the variant of
    the spec's [Outcome] of the matching name, carrying the arguments the
    call site passes. *)
Inductive Outcome :=
| LoggedIn (user : CognitoUser) (attributes : gmap string string)
| LoginFailure (user : CognitoUser) (why : reason)
| MfaRequired (user : CognitoUser)
| NewPasswordRequired (user : CognitoUser)
| ConfirmationRequired (user : CognitoUser)
| EmailVerificationRequired (user : CognitoUser) (attributes : gmap string string)
| EmailVerificationFailed (user : CognitoUser) (why : reason)
    (attributes : gmap string string)
| AttributesUpdated (attributes : gmap string string).

Module Action.
Definition login := LoggedIn.
Definition loginFailure := LoginFailure.
Definition mfaRequired := MfaRequired.
Definition newPasswordRequired := NewPasswordRequired.
Definition confirmationRequired := ConfirmationRequired.
Definition emailVerificationRequired := EmailVerificationRequired.
Definition emailVerificationFailed (user : CognitoUser) (why : reason)
    (attributes : gmap string string) : Outcome :=
  EmailVerificationFailed user why attributes.
Definition updateAttributes := AttributesUpdated.
End Action.

(* ===================================================================== *)
(** * Promises *)
(* ===================================================================== *)

(** What can be observed of one flow: the remote calls it makes, in order,
    the rejections no handler ever receives, the exceptions no caller
    catches, and the actions dispatched to the store. *)
Inductive event :=
| CallSignUp (pool : CognitoUserPool) (username password : string)
    (attributeList : list CognitoUserAttribute)
| CallAuthenticateUser (user : CognitoUser) (creds : AuthenticationDetails)
| CallGetSession (user : CognitoUser)
| CallRefresh (params : CredentialsParams)
| CallGetUserAttributes (user : CognitoUser)
| CallGetAttributeVerificationCode (user : CognitoUser) (attribute : string)
| CallUpdateAttributes (user : CognitoUser)
    (attributeList : list CognitoUserAttribute)
| CallChangePassword (user : CognitoUser) (oldPassword newPassword : string)
| UnhandledRejection (why : reason)
| UncaughtException (why : reason)
| Dispatch (action : Outcome).

(** The state a promise ends in once every remote call of the flow has
    answered.  [Pending]: it is never settled. *)
Inductive Promise (A : Type) :=
| Pending
| Fulfilled (v : A)
| Rejected (why : reason).
Arguments Pending {A}.
Arguments Fulfilled {A} v.
Arguments Rejected {A} why.

(** The argument of [resolve], and the return value of a [then] callback: a
    plain value, or a promise whose state is adopted. *)
Inductive resolution (A : Type) :=
| Val (v : A)
| Thenable (p : Promise A).
Arguments Val {A} v.
Arguments Thenable {A} p.

Definition adopt {A} (r : resolution A) : Promise A :=
  match r with
  | Val v => Fulfilled v
  | Thenable p => p
  end.

(** The frame of a running executor: the fate of the promise under
    construction ([None] until [resolve] or [reject] is first called) and the
    events so far. *)
Record Frame (A : Type) := MkFrame {
  fate : option (Promise A);
  log : list event
}.
Arguments MkFrame {A} fate log.
Arguments fate {A} f.
Arguments log {A} f.

(** A computation running inside the executor (or a callback closed over the
    [resolve] and [reject]) of a promise of [A]. *)
Definition Exec (A X : Type) : Type := Frame A -> X * Frame A.

#[global] Instance Exec_ret {A} : MRet (Exec A) :=
  fun X (x : X) fr => (x, fr).
#[global] Instance Exec_bind {A} : MBind (Exec A) :=
  fun X Y (k : X -> Exec A Y) (m : Exec A X) fr =>
    let '(x, fr') := m fr in k x fr'.

Definition emit {A} (e : event) : Exec A unit :=
  fun fr => (tt, MkFrame (fate fr) (log fr ++ [e])).

(** A remote call: it is recorded, and the service's answer comes back. *)
Definition remote {A X} (e : event) (answer : X) : Exec A X :=
  emit e;; mret answer.

(** The first call of [resolve] or [reject] decides the promise; later calls
    are ignored. *)
Definition settle {A} (p : Promise A) : Exec A unit :=
  fun fr =>
    match fate fr with
    | None => (tt, MkFrame (Some p) (log fr))
    | Some _ => (tt, fr)
    end.

(** [new Promise((resolve, reject) => ...)]: the executor runs at once, on a
    fresh frame; what it returns is ignored.  (No executor of the module
    calls the [resolve] of an enclosing promise: only [then] callbacks do,
    and they run in the frame of the promise whose [resolve] they close
    over.) *)
Definition new_promise {A B}
    (executor :
       (resolution B -> Exec B unit) -> (reason -> Exec B unit) -> Exec B unit)
    : Exec A (Promise B) :=
  fun fr =>
    let '(_, fr') :=
      executor (fun r => settle (adopt r)) (fun why => settle (Rejected why))
               (MkFrame None (log fr)) in
    (default Pending (fate fr'), MkFrame (fate fr) (log fr')).

(** [p.then(onFulfilled, onRejected)]: the callback for the state [p] ends in
    runs, and the derived promise adopts what it returns; without an
    [onRejected] a rejection passes to the derived promise; nothing runs
    while [p] is pending. *)
Definition then_ {A B C} (p : Promise B)
    (onFulfilled : B -> Exec A (resolution C))
    (onRejected : option (reason -> Exec A (resolution C)))
    : Exec A (Promise C) :=
  match p with
  | Pending => mret Pending
  | Fulfilled v => r ← onFulfilled v; mret (adopt r)
  | Rejected why =>
      match onRejected with
      | Some handler => r ← handler why; mret (adopt r)
      | None => mret (Rejected why)
      end
  end.

(** A promise nobody keeps: if it is rejected, the rejection is unhandled. *)
Definition discard {A C} (p : Promise C) : Exec A unit :=
  match p with
  | Rejected why => emit (UnhandledRejection why)
  | _ => mret tt
  end.

(** A callback whose body is a call and which returns [undefined]. *)
Definition returning_undefined {A} (m : Exec A unit) : Exec A (resolution unit) :=
  m;; mret (Val tt).

(** A top-level call: no executor is running; the events are appended to
    [tr]. *)
Definition run {X} (m : Exec Empty_set X) (tr : list event) : X * list event :=
  let '(x, fr) := m (MkFrame None tr) in (x, log fr).

(* ===================================================================== *)
(** * The flows *)
(* ===================================================================== *)

(** An attribute object ([attributes] in the source): the finite map of its
    own properties, names to string values. *)
Abbreviation AttributeMap := (gmap string string).

Section Flows.

Context (svc : Services).

(** [changePassword]. *)
Definition changePassword {A} (user : CognitoUser)
    (oldPassword newPassword : string) : Exec A (Promise string) :=
  new_promise (fun resolve reject =>
    answer ← remote (CallChangePassword user oldPassword newPassword)
               (user_changePassword svc user oldPassword newPassword);
    match answer with
    | inl err => reject (Message (message err))
    | inr result => resolve (Val result)
    end).

(** [sendAttributeVerificationCode]: [false] from [onSuccess], [true] from
    [inputVerificationCode]. *)
Definition sendAttributeVerificationCode {A} (user : CognitoUser)
    (attribute : string) : Exec A (Promise bool) :=
  new_promise (fun resolve reject =>
    answer ← remote (CallGetAttributeVerificationCode user attribute)
               (user_getAttributeVerificationCode svc user attribute);
    match answer with
    | codeOnSuccess => resolve (Val false)
    | inputVerificationCode => resolve (Val true)
    | codeOnFailure err => reject (Message (message err))
    end).

(** [attributes[name] = value] on an object created by [{}], for a string
    [value]: an own property is created or overwritten, except under the
    name [__proto__], which reaches the setter of [Object.prototype]; that
    setter ignores a string, so the object is left as it was. *)
Definition assign_property (attributes : AttributeMap) (name value : string)
    : AttributeMap :=
  if decide (name = "__proto__") then attributes
  else <[name := value]> attributes.

(** The loop of [getUserAttributes]: starting from [{}],
    [attributes[name] = value] for each element in turn. *)
Definition collect_attributes (result : list CognitoUserAttribute)
    : AttributeMap :=
  foldl (fun attributes a => assign_property attributes (getName a) (getValue a))
    ∅ result.

(** [getUserAttributes]. *)
Definition getUserAttributes {A} (user : CognitoUser)
    : Exec A (Promise AttributeMap) :=
  new_promise (fun resolve reject =>
    answer ← remote (CallGetUserAttributes user)
               (user_getUserAttributes svc user);
    match answer with
    | inl err => reject (Message (message err))
    | inr result => resolve (Val (collect_attributes result))
    end).

(** [emailVerificationFlow]: both callbacks of [then] are given. *)
Definition emailVerificationFlow {A} (user : CognitoUser)
    (attributes : AttributeMap) : Exec A (Promise Outcome) :=
  new_promise (fun resolve _ =>
    sent ← sendAttributeVerificationCode user "email";
    derived ← then_ sent
      (fun required : bool =>
         returning_undefined
           (if required
            then resolve (Val (Action.emailVerificationRequired user attributes))
            else resolve (Val (Action.login user attributes))))
      (Some (fun err =>
         returning_undefined
           (resolve (Val (Action.emailVerificationFailed user err attributes)))));
    discard derived).

(** [attributes.email_verified !== 'true']. *)
Definition email_not_verified (attributes : AttributeMap) : bool :=
  negb (bool_decide (attributes !! "email_verified" = Some "true")).

(** [loginOrVerifyEmail]: the executor takes [resolve] only, and [then] is
    given no rejection callback. *)
Definition loginOrVerifyEmail {A} (user : CognitoUser) (config : jsval)
    : Exec A (Promise Outcome) :=
  new_promise (fun resolve _ =>
    fetched ← getUserAttributes user;
    derived ← then_ fetched
      (fun attributes =>
         returning_undefined
           (if emailVerificationIsMandatory config
               && email_not_verified attributes
            then flow ← emailVerificationFlow user attributes;
                 resolve (Thenable flow)
            else resolve (Val (Action.login user attributes))))
      None;
    discard derived).

(** [buildLogins]; [None] when it throws: reading [config.region] of
    [undefined] or [null], or interpolating a [region] or [userPool] that
    cannot be converted to a string.  (The login URL starts with
    ["cognito-idp."], so [creds.Logins[loginUrl] = jwtToken] always creates
    an own property.) *)
Definition buildLogins (username jwtToken : string) (config : jsval)
    : option CredentialsParams :=
  region ← get_prop config "region";
  regionText ← interpolate region;
  let loginDomain := "cognito-idp." +:+ regionText +:+ ".amazonaws.com" in
  userPool ← get_prop config "userPool";
  userPoolText ← interpolate userPool;
  let loginUrl := loginDomain +:+ "/" +:+ userPoolText in
  identityPool ← get_prop config "identityPool";
  Some {| IdentityPoolId := identityPool;
          Logins := <[loginUrl := jwtToken]> ∅;
          LoginId := username |}.

(** The TypeError of [config.region] when [config] is [undefined] or
    [null] (the wording of the message is the engine's). *)
Definition cannot_read_region (config : jsval) : reason :=
  TypeError ("Cannot read property 'region' of "
             +:+ match config with JNull => "null" | _ => "undefined" end).

(** The TypeError of an interpolation that cannot convert its value. *)
Definition cannot_convert : reason :=
  TypeError "Cannot convert object to primitive value".

(** What [buildLogins] throws when it throws: the first statement fails
    either at the read of [config.region] or, like the second one, at an
    interpolation. *)
Definition buildLogins_error (config : jsval) : reason :=
  match get_prop config "region" with
  | None => cannot_read_region config
  | Some _ => cannot_convert
  end.

(** [refreshIdentityCredentials]; an exception thrown by the executor
    rejects the promise. *)
Definition refreshIdentityCredentials {A} (username jwtToken : string)
    (config : jsval) : Exec A (Promise unit) :=
  new_promise (fun resolve reject =>
    match buildLogins username jwtToken config with
    | None => reject (buildLogins_error config)
    | Some logins =>
        answer ← remote (CallRefresh logins) (creds_refresh svc logins);
        match answer with
        | Some err => reject (Message (message err))
        | None => resolve (Val tt)
        end
    end).

(** [performLogin]; [user] is [None] for [null] or [undefined]. *)
Definition performLogin {A} (user : option CognitoUser) (config : jsval)
    : Exec A (Promise Outcome) :=
  new_promise (fun resolve reject =>
    match user with
    | Some user =>
        answer ← remote (CallGetSession user) (user_getSession svc user);
        match answer with
        | inl err => resolve (Val (Action.loginFailure user (Message (message err))))
        | inr session =>
            let jwtToken := getJwtToken (getIdToken session) in
            let username := Username user in
            refreshed ← refreshIdentityCredentials username jwtToken config;
            derived ← then_ refreshed
              (fun _ =>
                 gate ← loginOrVerifyEmail user config;
                 inner ← then_ gate
                   (fun o => returning_undefined (resolve (Val o))) None;
                 mret (Thenable inner))
              (Some (fun msg =>
                 returning_undefined
                   (resolve (Val (Action.loginFailure user msg)))));
            discard derived
        end
    | None => reject (Message "user is null")
    end).

(** [authenticate]. *)
Definition authenticate {A} (username password : string)
    (userPool : CognitoUserPool) (config : jsval) : Exec A (Promise Outcome) :=
  new_promise (fun resolve _ =>
    let creds := {| ad_Username := username; ad_Password := password |} in
    let user := {| Username := username; Pool := userPool |} in
    answer ← remote (CallAuthenticateUser user creds)
               (user_authenticateUser svc user creds);
    match answer with
    | onSuccess _ =>
        login ← performLogin (Some user) config;
        derived ← then_ login
          (fun o => returning_undefined (resolve (Val o))) None;
        discard derived
    | onFailure err =>
        if String.eqb (code err) "UserNotConfirmedException"
        then resolve (Val (Action.confirmationRequired user))
        else resolve (Val (Action.loginFailure user (Message (message err))))
    | mfaRequired => resolve (Val (Action.mfaRequired user))
    | newPasswordRequired => resolve (Val (Action.newPasswordRequired user))
    end).

(** [mkAttrList]: one [{ Name: key, Value: attributes[key] }] per own key. *)
Definition mkAttrList (attributes : AttributeMap) : list CognitoUserAttribute :=
  (fun key => {| Name := key; Value := attributes !!! key |})
    <$> (map_to_list attributes).*1.

(** [updateAttributes]. *)
Definition updateAttributes {A} (user : CognitoUser)
    (attributes : AttributeMap) (config : jsval) : Exec A (Promise Outcome) :=
  new_promise (fun resolve reject =>
    let attributeList := mkAttrList attributes in
    answer ← remote (CallUpdateAttributes user attributeList)
               (user_updateAttributes svc user attributeList);
    match answer with
    | Some err => reject (Message (message err))
    | None =>
        if emailVerificationIsMandatory config
        then gate ← loginOrVerifyEmail user config;
             resolve (Thenable gate)
        else resolve (Val (Action.updateAttributes attributes))
    end).

(** [registerUser]. *)
Definition registerUser {A} (userPool : CognitoUserPool) (config : jsval)
    (username password : string) (attributes : AttributeMap)
    : Exec A (Promise Outcome) :=
  new_promise (fun resolve reject =>
    let attributeList := mkAttrList attributes in
    answer ← remote (CallSignUp userPool username password attributeList)
               (userPool_signUp svc userPool username password attributeList);
    match answer with
    | inl err => reject (Message (message err))
    | inr result =>
        if strict_eq_false (userConfirmed result)
        then resolve (Val (Action.confirmationRequired (su_user result)))
        else flow ← authenticate username password userPool config;
             resolve (Thenable flow)
    end).

End Flows.

(* ===================================================================== *)
(** * Frames and fates *)
(* ===================================================================== *)

(** The frame [fr] after the events [es]. *)
Definition logged {A} (fr : Frame A) (es : list event) : Frame A :=
  MkFrame (fate fr) (log fr ++ es).

(** How the promise of a login flow for [user] can end: fulfilled, or never
    settled because the attribute fetch failed; it is not rejected. *)
Definition fulfilled_unless_fetch_fails {X} (svc : Services)
    (user : CognitoUser) (p : Promise X) : Prop :=
  match p with
  | Fulfilled _ => True
  | Pending => exists err, user_getUserAttributes svc user = inl err
  | Rejected _ => False
  end.

(** The user handle an outcome carries; [AttributesUpdated] has none. *)
Definition outcome_user (o : Outcome) : option CognitoUser :=
  match o with
  | LoggedIn user _
  | LoginFailure user _
  | MfaRequired user
  | NewPasswordRequired user
  | ConfirmationRequired user
  | EmailVerificationRequired user _
  | EmailVerificationFailed user _ _ => Some user
  | AttributesUpdated _ => None
  end.

(** The remote calls among the events. *)
Definition is_remote_call (e : event) : bool :=
  match e with
  | UnhandledRejection _ | UncaughtException _ | Dispatch _ => false
  | _ => true
  end.

(* ===================================================================== *)
(** * The login form's own [authenticate] ([Login.jsx]) *)
(* ===================================================================== *)

Module LoginComponent.

Section Authenticate.

Context (svc : Services).

(** [postLoginDispatch] of [./utils] is imported but is not among the
    sources: it is a parameter. *)
Context (postLoginDispatch : forall A, CognitoUser -> Exec A unit).

(** [dispatch(action)]: the action reaches the store. *)
Definition dispatch {A} (action : Outcome) : Exec A unit :=
  emit (Dispatch action).

(** [authenticate(username, password, userPool, config, dispatch)]: no
    promise; every callback dispatches.  [onSuccess] builds the parameters
    with the statements of [buildLogins]; an exception it throws leaves the
    callback uncaught. *)
Definition authenticate {A} (username password : string)
    (userPool : CognitoUserPool) (config : jsval) : Exec A unit :=
  let creds := {| ad_Username := username; ad_Password := password |} in
  let user := {| Username := username; Pool := userPool |} in
  answer ← remote (CallAuthenticateUser user creds)
             (user_authenticateUser svc user creds);
  match answer with
  | onSuccess result =>
      match buildLogins username (getJwtToken (getIdToken result)) config with
      | None => emit (UncaughtException (buildLogins_error config))
      | Some identityCredentials =>
          answer ← remote (CallRefresh identityCredentials)
                     (creds_refresh svc identityCredentials);
          match answer with
          | Some err =>
              dispatch (Action.loginFailure user (Message (message err)))
          | None => postLoginDispatch A user
          end
      end
  | onFailure err => dispatch (Action.loginFailure user (Message (message err)))
  | mfaRequired => dispatch (Action.mfaRequired user)
  | newPasswordRequired => dispatch (Action.newPasswordRequired user)
  end.

(** [mapDispatchToProps(dispatch)]: its one property, [authenticator], calls
    [authenticate] with the store's [dispatch] and returns nothing. *)
Record DispatchProps := {
  authenticator :
    string -> string -> CognitoUserPool -> jsval -> Exec Empty_set unit
}.

Definition mapDispatchToProps : DispatchProps :=
  {| authenticator := fun username password userPool config =>
       authenticate username password userPool config |}.

End Authenticate.

(** The slice [state.cognito] of the store; [cs_user] is [None] when
    [state.cognito.user] is falsy. *)
Record CognitoState := {
  cs_user : option CognitoUser;
  cs_error : jsval;
  cs_config : jsval;
  cs_userPool : CognitoUserPool
}.

(** The object [mapStateToProps] returns. *)
Record StateProps := {
  sp_username : string;
  sp_error : jsval;
  sp_config : jsval;
  sp_userPool : CognitoUserPool
}.

(** [mapStateToProps]. *)
Definition mapStateToProps (state : CognitoState) : StateProps :=
  let username :=
    match cs_user state with
    | Some user => Username user
    | None => ""
    end in
  {| sp_username := username;
     sp_error := cs_error state;
     sp_config := cs_config state;
     sp_userPool := cs_userPool state |}.

(** A property of the component: a plain value, a pool handle, or the
    submit callback. *)
Inductive prop :=
| PropValue (v : jsval)
| PropPool (userPool : CognitoUserPool)
| PropCallback (f : string -> string -> Exec Empty_set unit).

(** The own properties of the object [mapStateToProps] returns. *)
Definition state_properties (stateProps : StateProps) : gmap string prop :=
  <["username" := PropValue (JStr (sp_username stateProps))]>
  (<["error" := PropValue (sp_error stateProps)]>
   (<["config" := PropValue (sp_config stateProps)]>
    (<["userPool" := PropPool (sp_userPool stateProps)]> ∅))).

(** [Object.assign({}, a, b, c)]: the properties of each source are assigned
    to the target in turn, so a later source overrides an earlier one.  An
    assignment under the name [__proto__] reaches the setter of
    [Object.prototype] and creates no own property. *)
Definition object_assign3 (a b c : gmap string prop) : gmap string prop :=
  delete "__proto__" (c ∪ (b ∪ (a ∪ ∅))).

(** [mergeProps]. *)
Definition mergeProps (stateProps : StateProps) (dispatchProps : DispatchProps)
    (ownProps : gmap string prop) : gmap string prop :=
  object_assign3 ownProps (state_properties stateProps)
    (<["onSubmit" :=
         PropCallback (fun username password =>
           authenticator dispatchProps username password
             (sp_userPool stateProps) (sp_config stateProps))]> ∅).

End LoginComponent.

(* ===================================================================== *)
(** * Sample data *)
(* ===================================================================== *)

Module Sample.

Definition pool : CognitoUserPool :=
  {| UserPoolId := "eu-west-1_pool"; ClientId := "client" |}.
Definition alice : CognitoUser := {| Username := "alice"; Pool := pool |}.
Definition alice_creds : AuthenticationDetails :=
  {| ad_Username := "alice"; ad_Password := "pw" |}.
Definition session : CognitoUserSession :=
  {| getIdToken := {| getJwtToken := "jwt" |} |}.
Definition boom : error := {| code := "NetworkError"; message := "boom" |}.
Definition unconfirmed : error :=
  {| code := "UserNotConfirmedException"; message := "User is not confirmed." |}.

(** A config that leaves [mandatoryEmailVerification] unset. *)
Definition config : jsval :=
  JObj (<["region" := JStr "eu-west-1"]>
        (<["userPool" := JStr "eu-west-1_pool"]>
         (<["identityPool" := JStr "eu-west-1:identity"]> ∅))).

(** The same with [mandatoryEmailVerification: false]. *)
Definition config_optional : jsval :=
  JObj (<["region" := JStr "eu-west-1"]>
        (<["userPool" := JStr "eu-west-1_pool"]>
         (<["identityPool" := JStr "eu-west-1:identity"]>
          (<["mandatoryEmailVerification" := JBool false]> ∅)))).

Definition logins : CredentialsParams :=
  {| IdentityPoolId := JStr "eu-west-1:identity";
     Logins :=
       <["cognito-idp.eu-west-1.amazonaws.com/eu-west-1_pool" := "jwt"]> ∅;
     LoginId := "alice" |}.

(** The attributes of the spec's example. *)
Definition attributes : AttributeMap :=
  <["email" := "a@b.com"]> (<["given_name" := "A"]> ∅).

Definition unverified : list CognitoUserAttribute :=
  [{| Name := "email"; Value := "a@b.com" |};
   {| Name := "email_verified"; Value := "false" |}].

(** Services that let every step succeed, but for the answers given as
    arguments. *)
Definition services (auth : AuthAnswer)
    (fetched : error + list CognitoUserAttribute) (sent : CodeAnswer)
    (refreshed updated : option error) (signedUp : error + SignUpResult)
    : Services :=
  {| user_authenticateUser := fun _ _ => auth;
     user_getSession := fun _ => inr session;
     user_getUserAttributes := fun _ => fetched;
     user_updateAttributes := fun _ _ => updated;
     user_getAttributeVerificationCode := fun _ _ => sent;
     user_changePassword := fun _ _ _ => inr "SUCCESS";
     userPool_signUp := fun _ _ _ _ => signedUp;
     creds_refresh := fun _ => refreshed |}.

Definition confirmed : error + SignUpResult :=
  inr {| su_user := alice; userConfirmed := JBool true |}.

(** A map with an own property named [__proto__] (as [JSON.parse] or a
    computed key creates one). *)
Definition proto_attributes : AttributeMap := <["__proto__" := "x"]> ∅.

(** A config whose [region] cannot be converted to a string:
    [{region: {toString: "x"}}]. *)
Definition unprintable_config : jsval :=
  JObj (<["region" := JObj (<["toString" := JStr "x"]> ∅)]> ∅).

(** A store without a user, and own properties that try to override the
    username. *)
Definition store : LoginComponent.CognitoState :=
  {| LoginComponent.cs_user := None;
     LoginComponent.cs_error := JStr "";
     LoginComponent.cs_config := config;
     LoginComponent.cs_userPool := pool |}.

Definition own_props : gmap string LoginComponent.prop :=
  <["username" := LoginComponent.PropValue (JStr "mallory")]>
  (<["className" := LoginComponent.PropValue (JStr "form")]> ∅).

End Sample.


(* ===================================================================== *)
(** * What each flow computes *)
(* ===================================================================== *)

Lemma logged_logged {A} (fr : Frame A) (es es' : list event) :
  logged (logged fr es) es' = logged fr (es ++ es').
Proof. unfold logged; simpl. by rewrite app_assoc. Qed.

Lemma run_eq {X} (m : Exec Empty_set X) (tr : list event) x es :
  (forall fr, m fr = (x, logged fr es)) -> run m tr = (x, tr ++ es).
Proof. intros Hm. unfold run. by rewrite Hm. Qed.

(** A promise settles at most once: once its fate is decided, [resolve] and
    [reject] change nothing. *)
Lemma settle_decided {A} (p q : Promise A) (es : list event) :
  settle q (MkFrame (Some p) es) = (tt, MkFrame (Some p) es).
Proof. reflexivity. Qed.

Ltac exec_unfold :=
  unfold new_promise, then_, discard, returning_undefined, remote, emit,
    settle, adopt, logged, mbind, mret, Exec_bind, Exec_ret; simpl.

(** Unfolds the outermost [new Promise] and the first statement of its
    executor, leaving the inner calls folded for their own equations. *)
Ltac enter_executor :=
  unfold new_promise at 1; unfold mbind at 1, Exec_bind at 1.

Section Equations.

Context (svc : Services).

Lemma changePassword_eq {A} user oldPassword newPassword (fr : Frame A) :
  changePassword svc user oldPassword newPassword fr =
  (match user_changePassword svc user oldPassword newPassword with
   | inl err => Rejected (Message (message err))
   | inr result => Fulfilled result
   end, logged fr [CallChangePassword user oldPassword newPassword]).
Proof.
  unfold changePassword. exec_unfold.
  destruct (user_changePassword svc user oldPassword newPassword); reflexivity.
Qed.

Lemma getUserAttributes_eq {A} user (fr : Frame A) :
  getUserAttributes svc user fr =
  (match user_getUserAttributes svc user with
   | inl err => Rejected (Message (message err))
   | inr result => Fulfilled (collect_attributes result)
   end, logged fr [CallGetUserAttributes user]).
Proof.
  unfold getUserAttributes. exec_unfold.
  destruct (user_getUserAttributes svc user); reflexivity.
Qed.

Lemma sendAttributeVerificationCode_eq {A} user attribute (fr : Frame A) :
  sendAttributeVerificationCode svc user attribute fr =
  (match user_getAttributeVerificationCode svc user attribute with
   | codeOnSuccess => Fulfilled false
   | inputVerificationCode => Fulfilled true
   | codeOnFailure err => Rejected (Message (message err))
   end, logged fr [CallGetAttributeVerificationCode user attribute]).
Proof.
  unfold sendAttributeVerificationCode. exec_unfold.
  destruct (user_getAttributeVerificationCode svc user attribute); reflexivity.
Qed.

(** The verification flow always fulfils: every answer of the code request
    has its callback. *)
Lemma emailVerificationFlow_eq {A} user attributes (fr : Frame A) :
  emailVerificationFlow svc user attributes fr =
  (Fulfilled
     match user_getAttributeVerificationCode svc user "email" with
     | codeOnSuccess => LoggedIn user attributes
     | inputVerificationCode => EmailVerificationRequired user attributes
     | codeOnFailure err =>
         EmailVerificationFailed user (Message (message err)) attributes
     end,
   logged fr [CallGetAttributeVerificationCode user "email"]).
Proof.
  unfold emailVerificationFlow. enter_executor.
  rewrite sendAttributeVerificationCode_eq.
  destruct (user_getAttributeVerificationCode svc user "email"); reflexivity.
Qed.

(** The gate when the attribute fetch fails: [resolve] is never called, and
    the rejection of the promise derived by [then] has no handler. *)
Lemma loginOrVerifyEmail_fetch_failed {A} user config err (fr : Frame A) :
  user_getUserAttributes svc user = inl err ->
  loginOrVerifyEmail svc user config fr =
  (Pending,
   logged fr [CallGetUserAttributes user;
              UnhandledRejection (Message (message err))]).
Proof.
  intros Hfetch. unfold loginOrVerifyEmail. enter_executor.
  rewrite getUserAttributes_eq, Hfetch. exec_unfold.
  by rewrite <- app_assoc.
Qed.

(** The gate when the attributes arrive. *)
Lemma loginOrVerifyEmail_fetched {A} user config result (fr : Frame A) :
  user_getUserAttributes svc user = inr result ->
  loginOrVerifyEmail svc user config fr =
  let attributes := collect_attributes result in
  if emailVerificationIsMandatory config && email_not_verified attributes
  then
    (Fulfilled
       match user_getAttributeVerificationCode svc user "email" with
       | codeOnSuccess => LoggedIn user attributes
       | inputVerificationCode => EmailVerificationRequired user attributes
       | codeOnFailure err =>
           EmailVerificationFailed user (Message (message err)) attributes
       end,
     logged fr [CallGetUserAttributes user;
                CallGetAttributeVerificationCode user "email"])
  else
    (Fulfilled (LoggedIn user attributes),
     logged fr [CallGetUserAttributes user]).
Proof.
  intros Hfetch. unfold loginOrVerifyEmail. enter_executor.
  rewrite getUserAttributes_eq, Hfetch.
  unfold then_, returning_undefined, mbind, mret, Exec_bind, Exec_ret.
  cbv zeta.
  destruct (emailVerificationIsMandatory config
            && email_not_verified (collect_attributes result)).
  - rewrite emailVerificationFlow_eq. exec_unfold.
    by rewrite <- app_assoc.
  - reflexivity.
Qed.

(** The gate never rejects. *)
Lemma loginOrVerifyEmail_not_rejected {A} user config (fr : Frame A) why :
  (loginOrVerifyEmail svc user config fr).1 <> Rejected why.
Proof.
  destruct (user_getUserAttributes svc user) as [err|result] eqn:Hfetch.
  - by rewrite (loginOrVerifyEmail_fetch_failed _ _ _ _ Hfetch).
  - rewrite (loginOrVerifyEmail_fetched _ _ _ _ Hfetch). cbv zeta.
    by destruct (_ && _).
Qed.

Lemma refreshIdentityCredentials_thrown {A} username jwtToken config
    (fr : Frame A) :
  buildLogins username jwtToken config = None ->
  refreshIdentityCredentials svc username jwtToken config fr =
  (Rejected (buildLogins_error config), fr).
Proof.
  intros Hbuild. unfold refreshIdentityCredentials. rewrite Hbuild.
  exec_unfold. by destruct fr.
Qed.

Lemma refreshIdentityCredentials_called {A} username jwtToken config logins
    (fr : Frame A) :
  buildLogins username jwtToken config = Some logins ->
  refreshIdentityCredentials svc username jwtToken config fr =
  (match creds_refresh svc logins with
   | Some err => Rejected (Message (message err))
   | None => Fulfilled tt
   end, logged fr [CallRefresh logins]).
Proof.
  intros Hbuild. unfold refreshIdentityCredentials. rewrite Hbuild.
  exec_unfold. destruct (creds_refresh svc logins); reflexivity.
Qed.

Lemma fulfilled_unless_fetch_fails_not_rejected {X} user (p : Promise X) :
  fulfilled_unless_fetch_fails svc user p -> forall why, p <> Rejected why.
Proof. by destruct p. Qed.

(** The gate acts in the same way on every frame: it appends its events and
    leaves the fate of the enclosing promise alone. *)
Lemma loginOrVerifyEmail_uniform user config :
  exists p es,
    (forall A (fr : Frame A),
       loginOrVerifyEmail svc user config fr = (p, logged fr es))
    /\ fulfilled_unless_fetch_fails svc user p.
Proof.
  destruct (user_getUserAttributes svc user) as [err|result] eqn:Hfetch.
  - eexists _, _. split.
    + intros A fr. by apply loginOrVerifyEmail_fetch_failed.
    + simpl. by exists err.
  - destruct (emailVerificationIsMandatory config
              && email_not_verified (collect_attributes result)) eqn:Hgate.
    + eexists _, _. split.
      * intros A fr. rewrite (loginOrVerifyEmail_fetched _ _ _ _ Hfetch).
        cbv zeta. rewrite Hgate. reflexivity.
      * done.
    + eexists _, _. split.
      * intros A fr. rewrite (loginOrVerifyEmail_fetched _ _ _ _ Hfetch).
        cbv zeta. rewrite Hgate. reflexivity.
      * done.
Qed.

Lemma performLogin_null {A} config (fr : Frame A) :
  performLogin svc None config fr = (Rejected (Message "user is null"), fr).
Proof. unfold performLogin. exec_unfold. by destruct fr. Qed.

Lemma performLogin_session_failed {A} user config err (fr : Frame A) :
  user_getSession svc user = inl err ->
  performLogin svc (Some user) config fr =
  (Fulfilled (LoginFailure user (Message (message err))),
   logged fr [CallGetSession user]).
Proof.
  intros Hsession. unfold performLogin. exec_unfold. by rewrite Hsession.
Qed.

Lemma performLogin_thrown {A} user config session (fr : Frame A) :
  user_getSession svc user = inr session ->
  buildLogins (Username user) (getJwtToken (getIdToken session)) config = None ->
  performLogin svc (Some user) config fr =
  (Fulfilled (LoginFailure user (buildLogins_error config)),
   logged fr [CallGetSession user]).
Proof.
  intros Hsession Hbuild. unfold performLogin. enter_executor.
  unfold remote, emit, mbind, mret, Exec_bind, Exec_ret.
  rewrite Hsession. cbv zeta.
  rewrite (refreshIdentityCredentials_thrown _ _ _ _ Hbuild).
  reflexivity.
Qed.

Lemma performLogin_refresh_failed {A} user config session logins err
    (fr : Frame A) :
  user_getSession svc user = inr session ->
  buildLogins (Username user) (getJwtToken (getIdToken session)) config
    = Some logins ->
  creds_refresh svc logins = Some err ->
  performLogin svc (Some user) config fr =
  (Fulfilled (LoginFailure user (Message (message err))),
   logged fr [CallGetSession user; CallRefresh logins]).
Proof.
  intros Hsession Hbuild Hrefresh. unfold performLogin. enter_executor.
  unfold remote, emit, mbind, mret, Exec_bind, Exec_ret.
  rewrite Hsession. cbv zeta.
  rewrite (refreshIdentityCredentials_called _ _ _ _ _ Hbuild), Hrefresh.
  exec_unfold. by rewrite <- app_assoc.
Qed.

(** After a successful exchange the promise of [performLogin] ends as the
    gate's promise does. *)
Lemma performLogin_refreshed {A} user config session logins p es
    (fr : Frame A) :
  user_getSession svc user = inr session ->
  buildLogins (Username user) (getJwtToken (getIdToken session)) config
    = Some logins ->
  creds_refresh svc logins = None ->
  (forall B (fr' : Frame B),
     loginOrVerifyEmail svc user config fr' = (p, logged fr' es)) ->
  (forall why, p <> Rejected why) ->
  performLogin svc (Some user) config fr =
  (p, logged fr ([CallGetSession user; CallRefresh logins] ++ es)).
Proof.
  intros Hsession Hbuild Hrefresh Hgate Hnr. unfold performLogin.
  enter_executor.
  unfold remote, emit, mbind, mret, Exec_bind, Exec_ret.
  rewrite Hsession. cbv zeta.
  rewrite (refreshIdentityCredentials_called _ _ _ _ _ Hbuild), Hrefresh.
  unfold then_ at 1. unfold mbind, mret, Exec_bind, Exec_ret.
  rewrite Hgate.
  destruct p as [|o|why]; [| |by destruct (Hnr why)];
    exec_unfold; by rewrite <- !app_assoc.
Qed.

Lemma performLogin_uniform user config :
  exists p es,
    (forall A (fr : Frame A),
       performLogin svc (Some user) config fr = (p, logged fr es))
    /\ fulfilled_unless_fetch_fails svc user p.
Proof.
  destruct (user_getSession svc user) as [err|session] eqn:Hsession.
  { eexists _, _. split.
    - intros A fr. by apply performLogin_session_failed.
    - done. }
  destruct (buildLogins (Username user) (getJwtToken (getIdToken session))
              config) as [logins|] eqn:Hbuild.
  2:{ eexists _, _. split.
      - intros A fr. by eapply performLogin_thrown.
      - done. }
  destruct (creds_refresh svc logins) as [err|] eqn:Hrefresh.
  { eexists _, _. split.
    - intros A fr. by eapply performLogin_refresh_failed.
    - done. }
  destruct (loginOrVerifyEmail_uniform user config) as (p & es & Hgate & Hp).
  exists p, ([CallGetSession user; CallRefresh logins] ++ es). split; [|done].
  intros A fr.
  by eapply performLogin_refreshed,
    fulfilled_unless_fetch_fails_not_rejected.
Qed.

Lemma authenticate_failed {A} username password userPool config err
    (fr : Frame A) :
  user_authenticateUser svc {| Username := username; Pool := userPool |}
    {| ad_Username := username; ad_Password := password |} = onFailure err ->
  authenticate svc username password userPool config fr =
  (Fulfilled
     (if String.eqb (code err) "UserNotConfirmedException"
      then ConfirmationRequired {| Username := username; Pool := userPool |}
      else LoginFailure {| Username := username; Pool := userPool |}
             (Message (message err))),
   logged fr [CallAuthenticateUser
                {| Username := username; Pool := userPool |}
                {| ad_Username := username; ad_Password := password |}]).
Proof.
  intros Hauth. unfold authenticate. enter_executor.
  unfold remote, emit, mbind, mret, Exec_bind, Exec_ret.
  rewrite Hauth.
  destruct (String.eqb (code err) "UserNotConfirmedException"); reflexivity.
Qed.

Lemma authenticate_mfa {A} username password userPool config (fr : Frame A) :
  user_authenticateUser svc {| Username := username; Pool := userPool |}
    {| ad_Username := username; ad_Password := password |} = mfaRequired ->
  authenticate svc username password userPool config fr =
  (Fulfilled (MfaRequired {| Username := username; Pool := userPool |}),
   logged fr [CallAuthenticateUser
                {| Username := username; Pool := userPool |}
                {| ad_Username := username; ad_Password := password |}]).
Proof.
  intros Hauth. unfold authenticate. enter_executor.
  unfold remote, emit, mbind, mret, Exec_bind, Exec_ret.
  by rewrite Hauth.
Qed.

Lemma authenticate_new_password {A} username password userPool config
    (fr : Frame A) :
  user_authenticateUser svc {| Username := username; Pool := userPool |}
    {| ad_Username := username; ad_Password := password |}
    = newPasswordRequired ->
  authenticate svc username password userPool config fr =
  (Fulfilled (NewPasswordRequired {| Username := username; Pool := userPool |}),
   logged fr [CallAuthenticateUser
                {| Username := username; Pool := userPool |}
                {| ad_Username := username; ad_Password := password |}]).
Proof.
  intros Hauth. unfold authenticate. enter_executor.
  unfold remote, emit, mbind, mret, Exec_bind, Exec_ret.
  by rewrite Hauth.
Qed.

(** After a successful directory authentication the promise of
    [authenticate] ends as the promise of [performLogin] does. *)
Lemma authenticate_succeeded {A} username password userPool config session
    p es (fr : Frame A) :
  user_authenticateUser svc {| Username := username; Pool := userPool |}
    {| ad_Username := username; ad_Password := password |}
    = onSuccess session ->
  (forall B (fr' : Frame B),
     performLogin svc (Some {| Username := username; Pool := userPool |})
       config fr' = (p, logged fr' es)) ->
  (forall why, p <> Rejected why) ->
  authenticate svc username password userPool config fr =
  (p, logged fr (CallAuthenticateUser
                   {| Username := username; Pool := userPool |}
                   {| ad_Username := username; ad_Password := password |}
                 :: es)).
Proof.
  intros Hauth Hlogin Hnr. unfold authenticate. enter_executor.
  unfold remote, emit, mbind, mret, Exec_bind, Exec_ret.
  rewrite Hauth, Hlogin.
  destruct p as [|o|why]; [| |by destruct (Hnr why)];
    exec_unfold; by rewrite <- !app_assoc.
Qed.

(** [authenticate] acts in the same way on every frame, and its first event
    is the call of [authenticateUser] with the submitted credentials. *)
Lemma authenticate_uniform username password userPool config :
  exists p rest,
    (forall A (fr : Frame A),
       authenticate svc username password userPool config fr
       = (p, logged fr (CallAuthenticateUser
                          {| Username := username; Pool := userPool |}
                          {| ad_Username := username; ad_Password := password |}
                        :: rest)))
    /\ fulfilled_unless_fetch_fails svc
         {| Username := username; Pool := userPool |} p.
Proof.
  destruct (user_authenticateUser svc
              {| Username := username; Pool := userPool |}
              {| ad_Username := username; ad_Password := password |})
    as [session|err| |] eqn:Hauth.
  - destruct (performLogin_uniform {| Username := username; Pool := userPool |}
                config) as (p & es & Hlogin & Hp).
    exists p, es. split; [|exact Hp].
    intros A fr.
    by eapply authenticate_succeeded,
      fulfilled_unless_fetch_fails_not_rejected.
  - eexists _, []. split.
    + intros A fr. by apply authenticate_failed.
    + done.
  - eexists _, []. split.
    + intros A fr. by apply authenticate_mfa.
    + done.
  - eexists _, []. split.
    + intros A fr. by apply authenticate_new_password.
    + done.
Qed.

End Equations.

(* ===================================================================== *)
(** * The attribute codec *)
(* ===================================================================== *)

(** [mkAttrList] reads [attributes[key]] for keys the object has, so each
    element is the name and the value of one property. *)
Lemma mkAttrList_pairs (attributes : AttributeMap) :
  mkAttrList attributes =
  (fun kv => {| Name := kv.1; Value := kv.2 |}) <$> map_to_list attributes.
Proof.
  unfold mkAttrList. rewrite <- list_fmap_compose.
  apply list_fmap_ext. intros i [key value] Hi. simpl. f_equal.
  apply lookup_total_correct, elem_of_map_to_list.
  by eapply list_elem_of_lookup_2.
Qed.

(** On a list without a repeated name, the assignments of the decoding loop
    build the map of the pairs, less the one named [__proto__]. *)
Lemma collect_attributes_pairs (pairs : list (string * string)) :
  NoDup pairs.*1 ->
  collect_attributes ((fun kv => {| Name := kv.1; Value := kv.2 |}) <$> pairs)
  = delete "__proto__" (list_to_map pairs).
Proof.
  unfold collect_attributes.
  induction pairs as [|[key value] pairs IH] using rev_ind.
  { intros _. simpl. by rewrite delete_empty. }
  rewrite fmap_app. intros [Hnodup [Hfresh _]]%NoDup_app.
  rewrite fmap_app. simpl. rewrite foldl_snoc, IH by done.
  unfold getName, getValue, assign_property. simpl.
  rewrite list_to_map_snoc.
  2:{ intros Hin. apply (Hfresh key); [done|]. simpl. apply list_elem_of_here. }
  destruct (decide (key = "__proto__")) as [->|Hkey].
  - by rewrite delete_insert_eq.
  - by rewrite delete_insert_ne.
Qed.

(** Encoding and decoding loses the property named [__proto__], and nothing
    else. *)
Lemma collect_attributes_mkAttrList (attributes : AttributeMap) :
  collect_attributes (mkAttrList attributes) = delete "__proto__" attributes.
Proof.
  rewrite mkAttrList_pairs, collect_attributes_pairs.
  - by rewrite list_to_map_to_list.
  - apply NoDup_fst_map_to_list.
Qed.

(* ===================================================================== *)
(** * The policy *)
(* ===================================================================== *)

(** C7. [emailVerificationIsMandatory] is [true] for an [undefined] config
    and for an object without the [mandatoryEmailVerification] property; it
    is [false] exactly when the config is an object whose property is the
    boolean [false]. *)
Theorem emailVerificationIsMandatory_fail_closed :
  emailVerificationIsMandatory JUndefined = true
  /\ (forall props : gmap string jsval,
        props !! "mandatoryEmailVerification" = None ->
        emailVerificationIsMandatory (JObj props) = true)
  /\ (forall config : jsval,
        emailVerificationIsMandatory config = false <->
        exists props : gmap string jsval,
          config = JObj props
          /\ props !! "mandatoryEmailVerification" = Some (JBool false)).
Proof.
  split; [reflexivity|]. split.
  - intros props Habsent. unfold emailVerificationIsMandatory, js_and, get_prop.
    simpl. by rewrite Habsent.
  - intros config. split.
    + unfold emailVerificationIsMandatory, js_and, get_prop.
      destruct config as [| |[]|s|props]; simpl; try done.
      * by destruct s.
      * destruct (props !! "mandatoryEmailVerification") as [[| |[]| |]|] eqn:Hflag;
          simpl; try done.
        intros _. by exists props.
    + intros (props & -> & Hflag).
      unfold emailVerificationIsMandatory, js_and, get_prop. simpl.
      by rewrite Hflag.
Qed.

Lemma emailVerificationIsMandatory_fail_closed_witness :
  emailVerificationIsMandatory (JObj ∅) = true
  /\ emailVerificationIsMandatory Sample.config = true
  /\ emailVerificationIsMandatory Sample.config_optional = false.
Proof.
  destruct emailVerificationIsMandatory_fail_closed as (_ & Habsent & Hfalse).
  split; [|split].
  - apply Habsent. reflexivity.
  - apply Habsent. vm_compute. reflexivity.
  - apply Hfalse. eexists. split; [reflexivity|]. vm_compute. reflexivity.
Defined.

(* ===================================================================== *)
(** * The codec round trip *)
(* ===================================================================== *)

(** C9 (as amended). Encoding an attribute map that has no property named
    [__proto__] with [mkAttrList] and decoding the list with the loop of
    [getUserAttributes] gives the map back. *)
Theorem mkAttrList_roundtrip (attributes : AttributeMap) :
  attributes !! "__proto__" = None ->
  collect_attributes (mkAttrList attributes) = attributes.
Proof.
  intros Hproto. rewrite collect_attributes_mkAttrList.
  by apply delete_id.
Qed.

Lemma mkAttrList_roundtrip_witness :
  collect_attributes (mkAttrList Sample.attributes) = Sample.attributes.
Proof.
  apply (mkAttrList_roundtrip Sample.attributes).
  vm_compute. reflexivity.
Defined.

(** C9 (as stated) fails: a map whose only property is named [__proto__] is
    encoded as one element and decoded as the empty object. *)
Lemma mkAttrList_roundtrip_loses_proto :
  mkAttrList Sample.proto_attributes = [{| Name := "__proto__"; Value := "x" |}]
  /\ collect_attributes (mkAttrList Sample.proto_attributes) = ∅
  /\ collect_attributes (mkAttrList Sample.proto_attributes)
     <> Sample.proto_attributes.
Proof.
  split; [vm_compute; reflexivity|].
  rewrite collect_attributes_mkAttrList. unfold Sample.proto_attributes.
  rewrite delete_insert_eq, delete_empty. split; [done|].
  intros Heq. apply (f_equal (fun m => m !! "__proto__")) in Heq.
  by rewrite lookup_empty, lookup_insert_eq in Heq.
Qed.

(** When the directory echoes the encoded list of such a map,
    [getUserAttributes] fulfils with the original map. *)
Lemma getUserAttributes_echo svc user (attributes : AttributeMap) tr :
  attributes !! "__proto__" = None ->
  user_getUserAttributes svc user = inr (mkAttrList attributes) ->
  run (getUserAttributes svc user) tr
  = (Fulfilled attributes, tr ++ [CallGetUserAttributes user]).
Proof.
  intros Hproto Hecho. apply run_eq. intros fr.
  rewrite getUserAttributes_eq, Hecho, collect_attributes_mkAttrList.
  by rewrite delete_id.
Qed.

(** The spec's example, [{email: "a@b.com", given_name: "A"}]. *)
Example attribute_codec_example :
  collect_attributes (mkAttrList Sample.attributes) = Sample.attributes.
Proof. vm_compute. reflexivity. Qed.

(* ===================================================================== *)
(** * The authentication flow *)
(* ===================================================================== *)

Lemma strict_eq_false_spec (v : jsval) :
  strict_eq_false v = true <-> v = JBool false.
Proof. destruct v as [| |[]| |]; simpl; split; congruence. Qed.

Lemma strict_eq_false_other (v : jsval) :
  v <> JBool false -> strict_eq_false v = false.
Proof.
  intros Hv. destruct (strict_eq_false v) eqn:Heq; [|done].
  by apply strict_eq_false_spec in Heq.
Qed.

(** C3. When the directory's attribute fetch fails, the promise of
    [loginOrVerifyEmail] is never settled: it is neither rejected with the
    directory's message nor fulfilled, and the message is lost in a rejection
    that no handler receives. *)
Theorem loginOrVerifyEmail_fetch_failure_never_settles svc user config err tr :
  user_getUserAttributes svc user = inl err ->
  run (loginOrVerifyEmail svc user config) tr =
  (Pending,
   tr ++ [CallGetUserAttributes user;
          UnhandledRejection (Message (message err))]).
Proof.
  intros Hfetch. apply run_eq. intros fr.
  by apply loginOrVerifyEmail_fetch_failed.
Qed.

Lemma loginOrVerifyEmail_fetch_failure_never_settles_witness :
  user_getUserAttributes
    (Sample.services (onSuccess Sample.session) (inl Sample.boom)
       inputVerificationCode None None Sample.confirmed)
    Sample.alice = inl Sample.boom
  /\ run (loginOrVerifyEmail
            (Sample.services (onSuccess Sample.session) (inl Sample.boom)
               inputVerificationCode None None Sample.confirmed)
            Sample.alice Sample.config) []
     = (Pending,
        [CallGetUserAttributes Sample.alice;
         UnhandledRejection (Message "boom")]).
Proof.
  split; [reflexivity|].
  apply (loginOrVerifyEmail_fetch_failure_never_settles
           (Sample.services (onSuccess Sample.session) (inl Sample.boom)
              inputVerificationCode None None Sample.confirmed)
           Sample.alice Sample.config Sample.boom []).
  reflexivity.
Defined.

(** C1. [authenticate] does not always settle: when every step up to the
    credential exchange succeeds and the attribute fetch of the gate fails,
    the returned promise stays pending for ever, and the directory's message
    ends in an unhandled rejection. *)
Theorem authenticate_fetch_failure_never_settles svc username password
    userPool config session0 session logins err tr :
  user_authenticateUser svc {| Username := username; Pool := userPool |}
    {| ad_Username := username; ad_Password := password |}
    = onSuccess session0 ->
  user_getSession svc {| Username := username; Pool := userPool |}
    = inr session ->
  buildLogins username (getJwtToken (getIdToken session)) config
    = Some logins ->
  creds_refresh svc logins = None ->
  user_getUserAttributes svc {| Username := username; Pool := userPool |}
    = inl err ->
  run (authenticate svc username password userPool config) tr =
  (Pending,
   tr ++ [CallAuthenticateUser {| Username := username; Pool := userPool |}
            {| ad_Username := username; ad_Password := password |};
          CallGetSession {| Username := username; Pool := userPool |};
          CallRefresh logins;
          CallGetUserAttributes {| Username := username; Pool := userPool |};
          UnhandledRejection (Message (message err))]).
Proof.
  intros Hauth Hsession Hbuild Hrefresh Hfetch. apply run_eq. intros fr.
  eapply authenticate_succeeded; [done| |done].
  intros B fr'.
  eapply (performLogin_refreshed svc {| Username := username; Pool := userPool |});
    [done..| |done].
  intros C fr''. by apply loginOrVerifyEmail_fetch_failed.
Qed.

Lemma authenticate_fetch_failure_never_settles_witness :
  run (authenticate
         (Sample.services (onSuccess Sample.session) (inl Sample.boom)
            inputVerificationCode None None Sample.confirmed)
         "alice" "pw" Sample.pool Sample.config) []
  = (Pending,
     [CallAuthenticateUser Sample.alice Sample.alice_creds;
      CallGetSession Sample.alice;
      CallRefresh Sample.logins;
      CallGetUserAttributes Sample.alice;
      UnhandledRejection (Message "boom")]).
Proof.
  apply (authenticate_fetch_failure_never_settles
           (Sample.services (onSuccess Sample.session) (inl Sample.boom)
              inputVerificationCode None None Sample.confirmed)
           "alice" "pw" Sample.pool Sample.config
           Sample.session Sample.session Sample.logins Sample.boom []).
  - reflexivity.
  - reflexivity.
  - vm_compute. reflexivity.
  - reflexivity.
  - reflexivity.
Defined.

(** X29. Whatever the services answer, the promise of [authenticate] is
    never rejected: it fulfils with one outcome, or it stays pending, and
    that only when the attribute fetch fails. *)
Theorem authenticate_fulfilled_unless_fetch_fails svc username password
    userPool config tr :
  (exists o es,
     run (authenticate svc username password userPool config) tr
     = (Fulfilled o, tr ++ es))
  \/ (exists err es,
        user_getUserAttributes svc {| Username := username; Pool := userPool |}
        = inl err
        /\ run (authenticate svc username password userPool config) tr
           = (Pending, tr ++ es)).
Proof.
  destruct (authenticate_uniform svc username password userPool config)
    as (p & rest & Hflow & Hp).
  destruct p as [|o|why]; simpl in Hp.
  - right. destruct Hp as [err Hfetch]. exists err. eexists. split; [done|].
    apply run_eq. intros fr. apply Hflow.
  - left. exists o. eexists. apply run_eq. intros fr. apply Hflow.
  - done.
Qed.

(** C5. When the directory refuses the credentials, [authenticate] fulfils
    with [ConfirmationRequired] for the error code
    ["UserNotConfirmedException"], and with [LoginFailure] carrying the
    directory's message for every other code; no further remote call is
    made. *)
Theorem authenticate_directory_failure svc username password userPool config
    err tr :
  user_authenticateUser svc {| Username := username; Pool := userPool |}
    {| ad_Username := username; ad_Password := password |} = onFailure err ->
  (code err = "UserNotConfirmedException" ->
   run (authenticate svc username password userPool config) tr
   = (Fulfilled (ConfirmationRequired {| Username := username; Pool := userPool |}),
      tr ++ [CallAuthenticateUser {| Username := username; Pool := userPool |}
               {| ad_Username := username; ad_Password := password |}]))
  /\ (code err <> "UserNotConfirmedException" ->
      run (authenticate svc username password userPool config) tr
      = (Fulfilled (LoginFailure {| Username := username; Pool := userPool |}
                      (Message (message err))),
         tr ++ [CallAuthenticateUser {| Username := username; Pool := userPool |}
                  {| ad_Username := username; ad_Password := password |}])).
Proof.
  intros Hauth. split; intros Hcode; apply run_eq; intros fr;
    rewrite (authenticate_failed _ _ _ _ _ _ _ Hauth).
  - apply String.eqb_eq in Hcode. by rewrite Hcode.
  - apply String.eqb_neq in Hcode. by rewrite Hcode.
Qed.

Lemma authenticate_directory_failure_witness :
  run (authenticate
         (Sample.services (onFailure Sample.unconfirmed) (inl Sample.boom)
            inputVerificationCode None None Sample.confirmed)
         "alice" "pw" Sample.pool Sample.config) []
  = (Fulfilled (ConfirmationRequired Sample.alice),
     [CallAuthenticateUser Sample.alice Sample.alice_creds])
  /\ run (authenticate
            (Sample.services (onFailure Sample.boom) (inl Sample.boom)
               inputVerificationCode None None Sample.confirmed)
            "alice" "pw" Sample.pool Sample.config) []
     = (Fulfilled (LoginFailure Sample.alice (Message "boom")),
        [CallAuthenticateUser Sample.alice Sample.alice_creds]).
Proof.
  split.
  - apply (authenticate_directory_failure
             (Sample.services (onFailure Sample.unconfirmed) (inl Sample.boom)
                inputVerificationCode None None Sample.confirmed)
             "alice" "pw" Sample.pool Sample.config Sample.unconfirmed []).
    + reflexivity.
    + reflexivity.
  - apply (authenticate_directory_failure
             (Sample.services (onFailure Sample.boom) (inl Sample.boom)
                inputVerificationCode None None Sample.confirmed)
             "alice" "pw" Sample.pool Sample.config Sample.boom []).
    + reflexivity.
    + vm_compute. discriminate.
Defined.

(** C4. When directory authentication and the session fetch succeed and the
    credential exchange fails, [performLogin] and [authenticate] fulfil with
    [LoginFailure] carrying the user and the exchange service's message; the
    gate is not entered, so no other outcome is produced. *)
Theorem authenticate_federation_failure svc username password userPool config
    session0 session logins err tr :
  user_authenticateUser svc {| Username := username; Pool := userPool |}
    {| ad_Username := username; ad_Password := password |}
    = onSuccess session0 ->
  user_getSession svc {| Username := username; Pool := userPool |}
    = inr session ->
  buildLogins username (getJwtToken (getIdToken session)) config
    = Some logins ->
  creds_refresh svc logins = Some err ->
  run (performLogin svc (Some {| Username := username; Pool := userPool |})
         config) tr
  = (Fulfilled (LoginFailure {| Username := username; Pool := userPool |}
                  (Message (message err))),
     tr ++ [CallGetSession {| Username := username; Pool := userPool |};
            CallRefresh logins])
  /\ run (authenticate svc username password userPool config) tr
     = (Fulfilled (LoginFailure {| Username := username; Pool := userPool |}
                     (Message (message err))),
        tr ++ [CallAuthenticateUser {| Username := username; Pool := userPool |}
                 {| ad_Username := username; ad_Password := password |};
               CallGetSession {| Username := username; Pool := userPool |};
               CallRefresh logins]).
Proof.
  intros Hauth Hsession Hbuild Hrefresh. split; apply run_eq; intros fr.
  - by eapply (performLogin_refresh_failed svc
                 {| Username := username; Pool := userPool |}).
  - eapply authenticate_succeeded; [done| |done].
    intros B fr'.
    by eapply (performLogin_refresh_failed svc
                 {| Username := username; Pool := userPool |}).
Qed.

Lemma authenticate_federation_failure_witness :
  run (authenticate
         (Sample.services (onSuccess Sample.session) (inr Sample.unverified)
            inputVerificationCode (Some Sample.boom) None Sample.confirmed)
         "alice" "pw" Sample.pool Sample.config) []
  = (Fulfilled (LoginFailure Sample.alice (Message "boom")),
     [CallAuthenticateUser Sample.alice Sample.alice_creds;
      CallGetSession Sample.alice;
      CallRefresh Sample.logins]).
Proof.
  apply (authenticate_federation_failure
           (Sample.services (onSuccess Sample.session) (inr Sample.unverified)
              inputVerificationCode (Some Sample.boom) None Sample.confirmed)
           "alice" "pw" Sample.pool Sample.config
           Sample.session Sample.session Sample.logins Sample.boom []).
  - reflexivity.
  - reflexivity.
  - vm_compute. reflexivity.
  - reflexivity.
Defined.

(** A config that is [undefined] or [null] never reaches the exchange
    service: reading [config.region] throws, and the flow fulfils with
    [LoginFailure] carrying the TypeError. *)
Lemma authenticate_without_config svc username password userPool session0
    session tr :
  user_authenticateUser svc {| Username := username; Pool := userPool |}
    {| ad_Username := username; ad_Password := password |}
    = onSuccess session0 ->
  user_getSession svc {| Username := username; Pool := userPool |}
    = inr session ->
  run (authenticate svc username password userPool JUndefined) tr
  = (Fulfilled (LoginFailure {| Username := username; Pool := userPool |}
                  (cannot_read_region JUndefined)),
     tr ++ [CallAuthenticateUser {| Username := username; Pool := userPool |}
              {| ad_Username := username; ad_Password := password |};
            CallGetSession {| Username := username; Pool := userPool |}]).
Proof.
  intros Hauth Hsession. apply run_eq. intros fr.
  eapply authenticate_succeeded; [done| |done].
  intros B fr'.
  by eapply (performLogin_thrown svc {| Username := username; Pool := userPool |}).
Qed.

(** The gate, entered with mandatory verification and an unverified email,
    follows the answer to the code request. *)
Lemma loginOrVerifyEmail_unverified svc {A} user config fetched (fr : Frame A) :
  user_getUserAttributes svc user = inr fetched ->
  emailVerificationIsMandatory config = true ->
  collect_attributes fetched !! "email_verified" <> Some "true" ->
  loginOrVerifyEmail svc user config fr =
  (Fulfilled
     match user_getAttributeVerificationCode svc user "email" with
     | codeOnSuccess => LoggedIn user (collect_attributes fetched)
     | inputVerificationCode =>
         EmailVerificationRequired user (collect_attributes fetched)
     | codeOnFailure err =>
         EmailVerificationFailed user (Message (message err))
           (collect_attributes fetched)
     end,
   logged fr [CallGetUserAttributes user;
              CallGetAttributeVerificationCode user "email"]).
Proof.
  intros Hfetch Hmandatory Hunverified.
  rewrite (loginOrVerifyEmail_fetched _ _ _ _ _ Hfetch). cbv zeta.
  rewrite Hmandatory. unfold email_not_verified.
  by rewrite bool_decide_eq_false_2.
Qed.

(** C2 (as amended). When directory authentication, the session fetch and
    the credential exchange succeed, verification is mandatory and the
    fetched [email_verified] is not ["true"], the outcome follows the answer
    to the code request: [EmailVerificationRequired] when a code must be
    entered, [EmailVerificationFailed] when the request fails, and
    [LoggedIn] when the request reports that no input is needed. *)
Theorem authenticate_unverified_email svc username password userPool config
    session0 session logins fetched tr :
  user_authenticateUser svc {| Username := username; Pool := userPool |}
    {| ad_Username := username; ad_Password := password |}
    = onSuccess session0 ->
  user_getSession svc {| Username := username; Pool := userPool |}
    = inr session ->
  buildLogins username (getJwtToken (getIdToken session)) config
    = Some logins ->
  creds_refresh svc logins = None ->
  user_getUserAttributes svc {| Username := username; Pool := userPool |}
    = inr fetched ->
  emailVerificationIsMandatory config = true ->
  collect_attributes fetched !! "email_verified" <> Some "true" ->
  (run (authenticate svc username password userPool config) tr).1
  = Fulfilled
      match user_getAttributeVerificationCode svc
              {| Username := username; Pool := userPool |} "email" with
      | inputVerificationCode =>
          EmailVerificationRequired {| Username := username; Pool := userPool |}
            (collect_attributes fetched)
      | codeOnFailure err =>
          EmailVerificationFailed {| Username := username; Pool := userPool |}
            (Message (message err)) (collect_attributes fetched)
      | codeOnSuccess =>
          LoggedIn {| Username := username; Pool := userPool |}
            (collect_attributes fetched)
      end.
Proof.
  intros Hauth Hsession Hbuild Hrefresh Hfetch Hmandatory Hunverified.
  erewrite run_eq.
  2:{ intros fr. eapply authenticate_succeeded; [done| |].
      - intros B fr'.
        eapply (performLogin_refreshed svc
                  {| Username := username; Pool := userPool |}); [done..| |].
        + intros C fr''. by apply loginOrVerifyEmail_unverified.
        + done.
      - done. }
  simpl. by destruct (user_getAttributeVerificationCode svc _ _).
Qed.

Lemma authenticate_unverified_email_witness :
  (run (authenticate
          (Sample.services (onSuccess Sample.session) (inr Sample.unverified)
             inputVerificationCode None None Sample.confirmed)
          "alice" "pw" Sample.pool Sample.config) []).1
  = Fulfilled (EmailVerificationRequired Sample.alice
                 (collect_attributes Sample.unverified)).
Proof.
  apply (authenticate_unverified_email
           (Sample.services (onSuccess Sample.session) (inr Sample.unverified)
              inputVerificationCode None None Sample.confirmed)
           "alice" "pw" Sample.pool Sample.config
           Sample.session Sample.session Sample.logins Sample.unverified []).
  - reflexivity.
  - reflexivity.
  - vm_compute. reflexivity.
  - reflexivity.
  - reflexivity.
  - vm_compute. reflexivity.
  - vm_compute. discriminate.
Defined.

(** C2 (as stated) fails: with mandatory verification (the flag is unset)
    and [email_verified] fetched as ["false"], a code request answered by
    [onSuccess] ends the flow in [LoggedIn]. *)
Lemma authenticate_unverified_email_logged_in :
  user_authenticateUser
    (Sample.services (onSuccess Sample.session) (inr Sample.unverified)
       codeOnSuccess None None Sample.confirmed)
    Sample.alice Sample.alice_creds = onSuccess Sample.session
  /\ emailVerificationIsMandatory Sample.config = true
  /\ collect_attributes Sample.unverified !! "email_verified" = Some "false"
  /\ (run (authenticate
             (Sample.services (onSuccess Sample.session) (inr Sample.unverified)
                codeOnSuccess None None Sample.confirmed)
             "alice" "pw" Sample.pool Sample.config) []).1
     = Fulfilled (LoggedIn Sample.alice (collect_attributes Sample.unverified)).
Proof.
  split; [reflexivity|]. split; [vm_compute; reflexivity|].
  split; [vm_compute; reflexivity|]. vm_compute. reflexivity.
Qed.

(* ===================================================================== *)
(** * Registration *)
(* ===================================================================== *)

Section Registration.

Context (svc : Services).

Lemma registerUser_refused {A} userPool config username password attributes
    err (fr : Frame A) :
  userPool_signUp svc userPool username password (mkAttrList attributes)
    = inl err ->
  registerUser svc userPool config username password attributes fr =
  (Rejected (Message (message err)),
   logged fr [CallSignUp userPool username password (mkAttrList attributes)]).
Proof.
  intros HsignUp. unfold registerUser. exec_unfold. by rewrite HsignUp.
Qed.

Lemma registerUser_unconfirmed {A} userPool config username password
    attributes result (fr : Frame A) :
  userPool_signUp svc userPool username password (mkAttrList attributes)
    = inr result ->
  strict_eq_false (userConfirmed result) = true ->
  registerUser svc userPool config username password attributes fr =
  (Fulfilled (ConfirmationRequired (su_user result)),
   logged fr [CallSignUp userPool username password (mkAttrList attributes)]).
Proof.
  intros HsignUp Hfalse. unfold registerUser. exec_unfold.
  by rewrite HsignUp, Hfalse.
Qed.

(** Otherwise the promise of [registerUser] adopts the promise of
    [authenticate], run after the sign-up call. *)
Lemma registerUser_authenticates userPool config username password
    attributes result tr :
  userPool_signUp svc userPool username password (mkAttrList attributes)
    = inr result ->
  strict_eq_false (userConfirmed result) = false ->
  run (registerUser svc userPool config username password attributes) tr
  = run (authenticate svc username password userPool config)
      (tr ++ [CallSignUp userPool username password (mkAttrList attributes)]).
Proof.
  intros HsignUp Hfalse.
  destruct (authenticate_uniform svc username password userPool config)
    as (p & rest & Hflow & _).
  rewrite (run_eq (authenticate svc username password userPool config)
             _ p _ (Hflow _)).
  rewrite <- app_assoc. apply run_eq. intros fr.
  unfold registerUser. enter_executor.
  unfold remote, emit, mbind, mret, Exec_bind, Exec_ret.
  rewrite HsignUp, Hfalse, Hflow.
  destruct p; exec_unfold; by rewrite <- !app_assoc.
Qed.

End Registration.

(** C6. When sign-up fails, [registerUser] rejects with the directory's
    message.  When it succeeds with [userConfirmed: false], [registerUser]
    fulfils with [ConfirmationRequired] for [result.user] and the sign-up is
    its only remote call.  Otherwise its promise ends as the promise of
    [authenticate], called with the same username, password, pool and
    config. *)
Theorem registerUser_outcome svc userPool config username password
    attributes tr :
  (forall err,
     userPool_signUp svc userPool username password (mkAttrList attributes)
       = inl err ->
     run (registerUser svc userPool config username password attributes) tr
     = (Rejected (Message (message err)),
        tr ++ [CallSignUp userPool username password (mkAttrList attributes)]))
  /\ (forall result,
        userPool_signUp svc userPool username password (mkAttrList attributes)
          = inr result ->
        userConfirmed result = JBool false ->
        run (registerUser svc userPool config username password attributes) tr
        = (Fulfilled (ConfirmationRequired (su_user result)),
           tr ++ [CallSignUp userPool username password
                    (mkAttrList attributes)]))
  /\ (forall result,
        userPool_signUp svc userPool username password (mkAttrList attributes)
          = inr result ->
        userConfirmed result <> JBool false ->
        run (registerUser svc userPool config username password attributes) tr
        = run (authenticate svc username password userPool config)
            (tr ++ [CallSignUp userPool username password
                      (mkAttrList attributes)])).
Proof.
  split; [|split].
  - intros err HsignUp. apply run_eq. intros fr.
    by apply registerUser_refused.
  - intros result HsignUp Hfalse. apply run_eq. intros fr.
    apply registerUser_unconfirmed; [done|].
    by apply strict_eq_false_spec.
  - intros result HsignUp Hother.
    eapply registerUser_authenticates; [done|].
    by apply strict_eq_false_other.
Qed.

Lemma registerUser_outcome_witness :
  run (registerUser
         (Sample.services (onSuccess Sample.session) (inr Sample.unverified)
            inputVerificationCode None None (inl Sample.boom))
         Sample.pool Sample.config "alice" "pw" Sample.attributes) []
  = (Rejected (Message "boom"),
     [CallSignUp Sample.pool "alice" "pw" (mkAttrList Sample.attributes)])
  /\ run (registerUser
            (Sample.services (onSuccess Sample.session) (inr Sample.unverified)
               inputVerificationCode None None
               (inr {| su_user := Sample.alice; userConfirmed := JBool false |}))
            Sample.pool Sample.config "alice" "pw" Sample.attributes) []
     = (Fulfilled (ConfirmationRequired Sample.alice),
        [CallSignUp Sample.pool "alice" "pw" (mkAttrList Sample.attributes)])
  /\ run (registerUser
            (Sample.services (onSuccess Sample.session) (inr Sample.unverified)
               inputVerificationCode None None Sample.confirmed)
            Sample.pool Sample.config "alice" "pw" Sample.attributes) []
     = run (authenticate
              (Sample.services (onSuccess Sample.session)
                 (inr Sample.unverified) inputVerificationCode None None
                 Sample.confirmed)
              "alice" "pw" Sample.pool Sample.config)
         [CallSignUp Sample.pool "alice" "pw" (mkAttrList Sample.attributes)].
Proof.
  split; [|split].
  - apply (proj1 (registerUser_outcome
             (Sample.services (onSuccess Sample.session) (inr Sample.unverified)
                inputVerificationCode None None (inl Sample.boom))
             Sample.pool Sample.config "alice" "pw" Sample.attributes [])
             Sample.boom).
    reflexivity.
  - apply (proj1 (proj2 (registerUser_outcome
             (Sample.services (onSuccess Sample.session) (inr Sample.unverified)
                inputVerificationCode None None
                (inr {| su_user := Sample.alice; userConfirmed := JBool false |}))
             Sample.pool Sample.config "alice" "pw" Sample.attributes []))
             {| su_user := Sample.alice; userConfirmed := JBool false |}).
    + reflexivity.
    + reflexivity.
  - apply (proj2 (proj2 (registerUser_outcome
             (Sample.services (onSuccess Sample.session) (inr Sample.unverified)
                inputVerificationCode None None Sample.confirmed)
             Sample.pool Sample.config "alice" "pw" Sample.attributes []))
             {| su_user := Sample.alice; userConfirmed := JBool true |}).
    + reflexivity.
    + discriminate.
Defined.

(** C10. Only the boolean [false] in [userConfirmed] stops the registration
    at [ConfirmationRequired]: for every other value, [undefined] (an absent
    property) included, the flow goes on to [authenticate], whose first
    remote call is [authenticateUser] with the submitted username and
    password, and the outcome is not decided by the sign-up. *)
Theorem registerUser_proceeds_unless_false svc userPool config username
    password attributes result tr :
  userPool_signUp svc userPool username password (mkAttrList attributes)
    = inr result ->
  userConfirmed result <> JBool false ->
  exists p rest,
    run (registerUser svc userPool config username password attributes) tr
    = (p,
       tr ++ [CallSignUp userPool username password (mkAttrList attributes);
              CallAuthenticateUser {| Username := username; Pool := userPool |}
                {| ad_Username := username; ad_Password := password |}]
          ++ rest)
    /\ run (authenticate svc username password userPool config) []
       = (p,
          CallAuthenticateUser {| Username := username; Pool := userPool |}
            {| ad_Username := username; ad_Password := password |} :: rest).
Proof.
  intros HsignUp Hother.
  destruct (authenticate_uniform svc username password userPool config)
    as (p & rest & Hflow & _).
  exists p, rest. split.
  - rewrite (registerUser_authenticates svc _ _ _ _ _ result) by
      auto using strict_eq_false_other.
    rewrite (run_eq (authenticate svc username password userPool config)
               _ p _ (Hflow _)).
    by rewrite <- !app_assoc.
  - by rewrite (run_eq (authenticate svc username password userPool config)
                  _ p _ (Hflow _)).
Qed.

Lemma registerUser_proceeds_unless_false_witness :
  exists p rest,
    run (registerUser
           (Sample.services (onFailure Sample.boom) (inr Sample.unverified)
              inputVerificationCode None None
              (inr {| su_user := Sample.alice; userConfirmed := JUndefined |}))
           Sample.pool Sample.config "alice" "pw" Sample.attributes) []
    = (p,
       [] ++ [CallSignUp Sample.pool "alice" "pw" (mkAttrList Sample.attributes);
              CallAuthenticateUser Sample.alice Sample.alice_creds] ++ rest)
    /\ run (authenticate
              (Sample.services (onFailure Sample.boom) (inr Sample.unverified)
                 inputVerificationCode None None
                 (inr {| su_user := Sample.alice; userConfirmed := JUndefined |}))
              "alice" "pw" Sample.pool Sample.config) []
       = (p, CallAuthenticateUser Sample.alice Sample.alice_creds :: rest).
Proof.
  apply (registerUser_proceeds_unless_false
           (Sample.services (onFailure Sample.boom) (inr Sample.unverified)
              inputVerificationCode None None
              (inr {| su_user := Sample.alice; userConfirmed := JUndefined |}))
           Sample.pool Sample.config "alice" "pw" Sample.attributes
           {| su_user := Sample.alice; userConfirmed := JUndefined |} []).
  - reflexivity.
  - discriminate.
Defined.

(** The values of [userConfirmed] that are not the boolean [false]. *)
Example registerUser_userConfirmed_values :
  strict_eq_false JUndefined = false
  /\ strict_eq_false JNull = false
  /\ strict_eq_false (JBool true) = false
  /\ strict_eq_false (JStr "false") = false
  /\ strict_eq_false (JStr "") = false
  /\ strict_eq_false (JObj ∅) = false
  /\ strict_eq_false (JBool false) = true.
Proof. repeat split. Qed.

(* ===================================================================== *)
(** * Attribute update *)
(* ===================================================================== *)

Section AttributeUpdate.

Context (svc : Services).

Lemma updateAttributes_refused {A} user attributes config err (fr : Frame A) :
  user_updateAttributes svc user (mkAttrList attributes) = Some err ->
  updateAttributes svc user attributes config fr =
  (Rejected (Message (message err)),
   logged fr [CallUpdateAttributes user (mkAttrList attributes)]).
Proof.
  intros Hupdate. unfold updateAttributes. exec_unfold. by rewrite Hupdate.
Qed.

Lemma updateAttributes_optional {A} user attributes config (fr : Frame A) :
  user_updateAttributes svc user (mkAttrList attributes) = None ->
  emailVerificationIsMandatory config = false ->
  updateAttributes svc user attributes config fr =
  (Fulfilled (AttributesUpdated attributes),
   logged fr [CallUpdateAttributes user (mkAttrList attributes)]).
Proof.
  intros Hupdate Hoptional. unfold updateAttributes. enter_executor.
  unfold remote, emit, mbind, mret, Exec_bind, Exec_ret.
  by rewrite Hupdate, Hoptional.
Qed.

(** With mandatory verification the promise of [updateAttributes] adopts
    the promise of the gate, run after the update call. *)
Lemma updateAttributes_gated user attributes config tr :
  user_updateAttributes svc user (mkAttrList attributes) = None ->
  emailVerificationIsMandatory config = true ->
  run (updateAttributes svc user attributes config) tr
  = run (loginOrVerifyEmail svc user config)
      (tr ++ [CallUpdateAttributes user (mkAttrList attributes)]).
Proof.
  intros Hupdate Hmandatory.
  destruct (loginOrVerifyEmail_uniform svc user config)
    as (p & es & Hgate & _).
  rewrite (run_eq (loginOrVerifyEmail svc user config) _ p _ (Hgate _)).
  rewrite <- app_assoc. apply run_eq. intros fr.
  unfold updateAttributes. enter_executor.
  unfold remote, emit, mbind, mret, Exec_bind, Exec_ret.
  rewrite Hupdate, Hmandatory, Hgate.
  destruct p; exec_unfold; by rewrite <- !app_assoc.
Qed.

End AttributeUpdate.

(** C8. When the directory's update fails, [updateAttributes] rejects with
    the directory's message.  When it succeeds and verification is
    mandatory, its promise ends as the promise of the gate, run again.  When
    it succeeds and verification is not mandatory, it fulfils with
    [AttributesUpdated] carrying the submitted map, and the update is its
    only remote call. *)
Theorem updateAttributes_outcome svc user attributes config tr :
  (forall err,
     user_updateAttributes svc user (mkAttrList attributes) = Some err ->
     run (updateAttributes svc user attributes config) tr
     = (Rejected (Message (message err)),
        tr ++ [CallUpdateAttributes user (mkAttrList attributes)]))
  /\ (user_updateAttributes svc user (mkAttrList attributes) = None ->
      emailVerificationIsMandatory config = true ->
      run (updateAttributes svc user attributes config) tr
      = run (loginOrVerifyEmail svc user config)
          (tr ++ [CallUpdateAttributes user (mkAttrList attributes)]))
  /\ (user_updateAttributes svc user (mkAttrList attributes) = None ->
      emailVerificationIsMandatory config = false ->
      run (updateAttributes svc user attributes config) tr
      = (Fulfilled (AttributesUpdated attributes),
         tr ++ [CallUpdateAttributes user (mkAttrList attributes)])).
Proof.
  split; [|split].
  - intros err Hupdate. apply run_eq. intros fr.
    by apply updateAttributes_refused.
  - apply updateAttributes_gated.
  - intros Hupdate Hoptional. apply run_eq. intros fr.
    by apply updateAttributes_optional.
Qed.

Lemma updateAttributes_outcome_witness :
  run (updateAttributes
         (Sample.services (onSuccess Sample.session) (inr Sample.unverified)
            inputVerificationCode None (Some Sample.boom) Sample.confirmed)
         Sample.alice Sample.attributes Sample.config) []
  = (Rejected (Message "boom"),
     [CallUpdateAttributes Sample.alice (mkAttrList Sample.attributes)])
  /\ run (updateAttributes
            (Sample.services (onSuccess Sample.session) (inr Sample.unverified)
               inputVerificationCode None None Sample.confirmed)
            Sample.alice Sample.attributes Sample.config) []
     = run (loginOrVerifyEmail
              (Sample.services (onSuccess Sample.session)
                 (inr Sample.unverified) inputVerificationCode None None
                 Sample.confirmed)
              Sample.alice Sample.config)
         [CallUpdateAttributes Sample.alice (mkAttrList Sample.attributes)]
  /\ run (updateAttributes
            (Sample.services (onSuccess Sample.session) (inr Sample.unverified)
               inputVerificationCode None None Sample.confirmed)
            Sample.alice Sample.attributes Sample.config_optional) []
     = (Fulfilled (AttributesUpdated Sample.attributes),
        [CallUpdateAttributes Sample.alice (mkAttrList Sample.attributes)]).
Proof.
  split; [|split].
  - apply (proj1 (updateAttributes_outcome
             (Sample.services (onSuccess Sample.session) (inr Sample.unverified)
                inputVerificationCode None (Some Sample.boom) Sample.confirmed)
             Sample.alice Sample.attributes Sample.config []) Sample.boom).
    reflexivity.
  - apply (proj1 (proj2 (updateAttributes_outcome
             (Sample.services (onSuccess Sample.session) (inr Sample.unverified)
                inputVerificationCode None None Sample.confirmed)
             Sample.alice Sample.attributes Sample.config []))).
    + reflexivity.
    + vm_compute. reflexivity.
  - apply (proj2 (proj2 (updateAttributes_outcome
             (Sample.services (onSuccess Sample.session) (inr Sample.unverified)
                inputVerificationCode None None Sample.confirmed)
             Sample.alice Sample.attributes Sample.config_optional []))).
    + reflexivity.
    + vm_compute. reflexivity.
Defined.

(* ===================================================================== *)
(** * The login form's own authenticate *)
(* ===================================================================== *)

(** X23. The older [authenticate] of [Login.jsx] does not look at the error
    code: every failure of the directory, ["UserNotConfirmedException"]
    included, is dispatched as [LoginFailure] with the directory's message,
    right after its only remote call. *)
Lemma login_component_failure_dispatched svc postLoginDispatch username
    password userPool config err tr :
  user_authenticateUser svc {| Username := username; Pool := userPool |}
    {| ad_Username := username; ad_Password := password |} = onFailure err ->
  run (LoginComponent.authenticate svc postLoginDispatch username password
         userPool config) tr
  = (tt,
     tr ++ [CallAuthenticateUser {| Username := username; Pool := userPool |}
              {| ad_Username := username; ad_Password := password |};
            Dispatch (LoginFailure {| Username := username; Pool := userPool |}
                        (Message (message err)))]).
Proof.
  intros Hauth. apply run_eq. intros fr.
  unfold LoginComponent.authenticate, LoginComponent.dispatch. exec_unfold.
  rewrite Hauth. simpl. by rewrite <- app_assoc.
Qed.

(* ===================================================================== *)
(** * Further properties: the codec *)
(* ===================================================================== *)

(** X1. The decoding loop of [getUserAttributes] keeps, for each name but
    [__proto__], the value of the last element carrying it, and has no
    entry for a name that no element carries; under [__proto__] it never
    has an entry, whatever the list holds. *)
Theorem collect_attributes_lookup (result : list CognitoUserAttribute) :
  collect_attributes result !! "__proto__" = None
  /\ (forall name : string,
        name <> "__proto__" ->
        collect_attributes result !! name
        = getValue <$> last (filter (fun a => getName a = name) result)).
Proof.
  unfold collect_attributes. split.
  - induction result as [|a result IH] using rev_ind; [done|].
    rewrite foldl_snoc. unfold assign_property.
    destruct (decide (getName a = "__proto__")) as [Heq|Hne]; [done|].
    by rewrite lookup_insert_ne.
  - intros name Hname.
    induction result as [|a result IH] using rev_ind; [done|].
    rewrite foldl_snoc, filter_app, filter_cons, filter_nil.
    unfold assign_property.
    destruct (decide (getName a = name)) as [Heq|Hne].
    + rewrite last_snoc. simpl.
      rewrite decide_False by congruence.
      rewrite Heq. apply lookup_insert_eq.
    + rewrite app_nil_r.
      destruct (decide (getName a = "__proto__")); [done|].
      by rewrite lookup_insert_ne.
Qed.

Lemma collect_attributes_lookup_witness :
  collect_attributes Sample.unverified !! "email_verified"
  = getValue
      <$> last (filter (fun a => getName a = "email_verified")
                  Sample.unverified).
Proof.
  apply (proj2 (collect_attributes_lookup Sample.unverified)).
  discriminate.
Defined.

(** X2. [mkAttrList] makes one element per attribute, no name twice, and
    each element carries the value the map has under its name; an element
    is in the list exactly when the map has that entry. *)
Theorem mkAttrList_elements (attributes : AttributeMap) :
  length (mkAttrList attributes) = size attributes
  /\ NoDup (Name <$> mkAttrList attributes)
  /\ (forall name value,
        {| Name := name; Value := value |} ∈ mkAttrList attributes
        <-> attributes !! name = Some value).
Proof.
  rewrite mkAttrList_pairs. split; [|split].
  - by rewrite length_fmap, length_map_to_list.
  - rewrite <- list_fmap_compose.
    apply (NoDup_fst_map_to_list attributes).
  - intros name value. rewrite list_elem_of_fmap. split.
    + intros ([key v] & Heq & Hin). simpl in Heq.
      injection Heq as -> ->. by apply elem_of_map_to_list.
    + intros Hlookup. exists (name, value). split; [done|].
      by apply elem_of_map_to_list.
Qed.

(** X3. Decoding a list that carries no name twice and encoding the map
    again gives back, up to their order, the elements of the list that are
    not named [__proto__]. *)
Theorem collect_attributes_roundtrip (result : list CognitoUserAttribute) :
  NoDup (Name <$> result) ->
  mkAttrList (collect_attributes result)
  ≡ₚ filter (fun a => Name a <> "__proto__") result.
Proof.
  intros Hnodup.
  assert (exists pairs : list (string * string),
            result = (fun kv => {| Name := kv.1; Value := kv.2 |}) <$> pairs)
    as [pairs ->].
  { exists ((fun a => (Name a, Value a)) <$> result).
    rewrite <- list_fmap_compose. rewrite <- (list_fmap_id result) at 1.
    apply list_fmap_ext. by intros i [name value] _. }
  rewrite <- list_fmap_compose in Hnodup.
  rewrite collect_attributes_pairs, mkAttrList_pairs by done.
  apply NoDup_Permutation.
  - eapply (NoDup_fmap_1 Name). rewrite <- list_fmap_compose.
    apply (NoDup_fst_map_to_list (delete "__proto__" (list_to_map pairs))).
  - apply NoDup_filter. eapply (NoDup_fmap_1 Name).
    by rewrite <- list_fmap_compose.
  - intros [name value].
    rewrite list_elem_of_filter, !list_elem_of_fmap. simpl. split.
    + intros ([key v] & Heq & Hin). simpl in Heq. injection Heq as -> ->.
      apply elem_of_map_to_list, lookup_delete_Some in Hin as [Hne Hin].
      apply elem_of_list_to_map in Hin; [|done].
      split; [congruence|]. by exists (key, v).
    + intros [Hne ([key v] & Heq & Hin)]. simpl in Heq.
      injection Heq as -> ->. exists (key, v). split; [done|].
      apply elem_of_map_to_list, lookup_delete_Some. split; [congruence|].
      by apply elem_of_list_to_map.
Qed.

Lemma collect_attributes_roundtrip_witness :
  mkAttrList (collect_attributes Sample.unverified)
  ≡ₚ filter (fun a => Name a <> "__proto__") Sample.unverified.
Proof.
  apply (collect_attributes_roundtrip Sample.unverified).
  apply (bool_decide_unpack _). vm_compute. exact I.
Defined.

(* ===================================================================== *)
(** * Further properties: how the flows chain *)
(* ===================================================================== *)

Section Chaining.

Context (svc : Services).

Lemma loginOrVerifyEmail_run user config tr :
  run (loginOrVerifyEmail svc user config) tr =
  match user_getUserAttributes svc user with
  | inl err =>
      (Pending,
       tr ++ [CallGetUserAttributes user;
              UnhandledRejection (Message (message err))])
  | inr result =>
      if emailVerificationIsMandatory config
         && email_not_verified (collect_attributes result)
      then
        (Fulfilled
           match user_getAttributeVerificationCode svc user "email" with
           | codeOnSuccess => LoggedIn user (collect_attributes result)
           | inputVerificationCode =>
               EmailVerificationRequired user (collect_attributes result)
           | codeOnFailure err =>
               EmailVerificationFailed user (Message (message err))
                 (collect_attributes result)
           end,
         tr ++ [CallGetUserAttributes user;
                CallGetAttributeVerificationCode user "email"])
      else
        (Fulfilled (LoggedIn user (collect_attributes result)),
         tr ++ [CallGetUserAttributes user])
  end.
Proof.
  destruct (user_getUserAttributes svc user) as [err|result] eqn:Hfetch.
  - apply run_eq. intros fr. by apply loginOrVerifyEmail_fetch_failed.
  - destruct (emailVerificationIsMandatory config
              && email_not_verified (collect_attributes result)) eqn:Hgate;
      apply run_eq; intros fr;
      rewrite (loginOrVerifyEmail_fetched _ _ _ _ _ Hfetch); cbv zeta;
      by rewrite Hgate.
Qed.

(** For a user that is not [null], [performLogin] ends at the first step
    that fails, and otherwise as the gate does. *)
Lemma performLogin_run user config tr :
  run (performLogin svc (Some user) config) tr =
  match user_getSession svc user with
  | inl err =>
      (Fulfilled (LoginFailure user (Message (message err))),
       tr ++ [CallGetSession user])
  | inr session =>
      match buildLogins (Username user) (getJwtToken (getIdToken session))
              config with
      | None =>
          (Fulfilled (LoginFailure user (buildLogins_error config)),
           tr ++ [CallGetSession user])
      | Some logins =>
          match creds_refresh svc logins with
          | Some err =>
              (Fulfilled (LoginFailure user (Message (message err))),
               tr ++ [CallGetSession user; CallRefresh logins])
          | None =>
              run (loginOrVerifyEmail svc user config)
                (tr ++ [CallGetSession user; CallRefresh logins])
          end
      end
  end.
Proof.
  destruct (user_getSession svc user) as [err|session] eqn:Hsession.
  { apply run_eq. intros fr. by apply performLogin_session_failed. }
  destruct (buildLogins _ _ _) as [logins|] eqn:Hbuild.
  2:{ apply run_eq. intros fr. by eapply performLogin_thrown. }
  destruct (creds_refresh svc logins) as [err|] eqn:Hrefresh.
  { apply run_eq. intros fr. by eapply performLogin_refresh_failed. }
  destruct (loginOrVerifyEmail_uniform svc user config)
    as (p & es & Hgate & Hp).
  rewrite (run_eq (loginOrVerifyEmail svc user config) _ p _ (Hgate _)).
  rewrite <- app_assoc. apply run_eq. intros fr.
  by eapply performLogin_refreshed, fulfilled_unless_fetch_fails_not_rejected.
Qed.

(** [authenticate] ends at a refusal or an interruption of the directory,
    and otherwise as [performLogin] does. *)
Lemma authenticate_run username password userPool config tr :
  run (authenticate svc username password userPool config) tr =
  match user_authenticateUser svc {| Username := username; Pool := userPool |}
          {| ad_Username := username; ad_Password := password |} with
  | onSuccess _ =>
      run (performLogin svc (Some {| Username := username; Pool := userPool |})
             config)
        (tr ++ [CallAuthenticateUser
                  {| Username := username; Pool := userPool |}
                  {| ad_Username := username; ad_Password := password |}])
  | onFailure err =>
      (Fulfilled
         (if String.eqb (code err) "UserNotConfirmedException"
          then ConfirmationRequired {| Username := username; Pool := userPool |}
          else LoginFailure {| Username := username; Pool := userPool |}
                 (Message (message err))),
       tr ++ [CallAuthenticateUser
                {| Username := username; Pool := userPool |}
                {| ad_Username := username; ad_Password := password |}])
  | mfaRequired =>
      (Fulfilled (MfaRequired {| Username := username; Pool := userPool |}),
       tr ++ [CallAuthenticateUser
                {| Username := username; Pool := userPool |}
                {| ad_Username := username; ad_Password := password |}])
  | newPasswordRequired =>
      (Fulfilled
         (NewPasswordRequired {| Username := username; Pool := userPool |}),
       tr ++ [CallAuthenticateUser
                {| Username := username; Pool := userPool |}
                {| ad_Username := username; ad_Password := password |}])
  end.
Proof.
  destruct (user_authenticateUser svc _ _) as [session|err| |] eqn:Hauth.
  - destruct (performLogin_uniform svc
                {| Username := username; Pool := userPool |} config)
      as (p & es & Hlogin & Hp).
    rewrite (run_eq (performLogin svc _ config) _ p _ (Hlogin _)).
    rewrite <- app_assoc. apply run_eq. intros fr.
    by eapply authenticate_succeeded,
      fulfilled_unless_fetch_fails_not_rejected.
  - apply run_eq. intros fr. by apply authenticate_failed.
  - apply run_eq. intros fr. by apply authenticate_mfa.
  - apply run_eq. intros fr. by apply authenticate_new_password.
Qed.

End Chaining.

(* ===================================================================== *)
(** * Further properties: the credential exchange *)
(* ===================================================================== *)

(** An interpolation throws exactly for an object with an own [toString]
    property. *)
Lemma interpolate_None (v : jsval) :
  interpolate v = None
  <-> exists props, v = JObj props /\ is_Some (props !! "toString").
Proof.
  split.
  - destruct v as [| |[]|s|props]; simpl; try done.
    destruct (props !! "toString") as [w|] eqn:Hown; [|done].
    intros _. exists props. split; [done|]. by exists w.
  - intros (props & -> & [w Hown]). simpl. by rewrite Hown.
Qed.

(** When [buildLogins] throws. *)
Lemma buildLogins_None (username jwtToken : string) (config : jsval) :
  buildLogins username jwtToken config = None
  <-> config = JUndefined \/ config = JNull
      \/ exists props,
           (get_prop config "region" = Some (JObj props)
            \/ get_prop config "userPool" = Some (JObj props))
           /\ is_Some (props !! "toString").
Proof.
  unfold buildLogins.
  destruct (get_prop config "region") as [region|] eqn:Hregion; simpl.
  2:{ split; [|done]. intros _.
      destruct config; try done; [by left|by right; left]. }
  assert (exists userPool identityPool,
            get_prop config "userPool" = Some userPool
            /\ get_prop config "identityPool" = Some identityPool)
    as (userPool & identityPool & -> & ->).
  { destruct config; try done; simpl; eauto. }
  assert (config <> JUndefined /\ config <> JNull) as [Hu Hn].
  { by destruct config. }
  destruct (interpolate region) as [regionText|] eqn:HregionText; simpl.
  + destruct (interpolate userPool) as [userPoolText|] eqn:HpoolText; simpl.
    * split; [done|]. intros [?|[?|(props & [[= ->]|[= ->]] & Hown)]];
        try done.
      -- assert (interpolate (JObj props) = None) as Hnone
           by (apply interpolate_None; eauto).
         congruence.
      -- assert (interpolate (JObj props) = None) as Hnone
           by (apply interpolate_None; eauto).
         congruence.
    * split; [|done]. intros _. right. right.
      apply interpolate_None in HpoolText as (props & -> & Hown).
      exists props. split; [by right|done].
  + split; [|done]. intros _. right. right.
    apply interpolate_None in HregionText as (props & -> & Hown).
    exists props. split; [by left|done].
Qed.

(** X4. [buildLogins] throws exactly when the config is [undefined] or
    [null], or when its [region] or its [userPool] is an object with an own
    [toString] property.  Otherwise the parameters name the user as
    [LoginId], carry [config.identityPool], and [Logins] has a single entry:
    the token, under the login URL made of the texts of [region] and
    [userPool]. *)
Theorem buildLogins_parameters (username jwtToken : string) (config : jsval) :
  (buildLogins username jwtToken config = None
   <-> config = JUndefined \/ config = JNull
       \/ exists props,
            (get_prop config "region" = Some (JObj props)
             \/ get_prop config "userPool" = Some (JObj props))
            /\ is_Some (props !! "toString"))
  /\ (forall params,
        buildLogins username jwtToken config = Some params ->
        LoginId params = username
        /\ size (Logins params) = 1
        /\ exists region regionText userPool userPoolText,
             get_prop config "region" = Some region
             /\ interpolate region = Some regionText
             /\ get_prop config "userPool" = Some userPool
             /\ interpolate userPool = Some userPoolText
             /\ get_prop config "identityPool" = Some (IdentityPoolId params)
             /\ Logins params
                  !! (("cognito-idp." +:+ regionText +:+ ".amazonaws.com")
                      +:+ "/" +:+ userPoolText)
                = Some jwtToken).
Proof.
  split; [apply buildLogins_None|].
  intros params. unfold buildLogins.
  destruct (get_prop config "region") as [region|] eqn:Hregion; [|done].
  simpl.
  destruct (interpolate region) as [regionText|] eqn:HregionText; [|done].
  simpl.
  destruct (get_prop config "userPool") as [userPool|] eqn:HuserPool; [|done].
  simpl.
  destruct (interpolate userPool) as [userPoolText|] eqn:HpoolText; [|done].
  simpl.
  destruct (get_prop config "identityPool") as [identityPool|] eqn:Hpool;
    [|done].
  simpl. intros [= <-]. simpl. split; [done|]. split.
  + by rewrite insert_empty, map_size_singleton.
  + exists region, regionText, userPool, userPoolText.
    repeat split; try done. apply lookup_insert_eq.
Qed.

Lemma buildLogins_parameters_witness :
  LoginId Sample.logins = "alice"
  /\ size (Logins Sample.logins) = 1
  /\ exists region regionText userPool userPoolText,
       get_prop Sample.config "region" = Some region
       /\ interpolate region = Some regionText
       /\ get_prop Sample.config "userPool" = Some userPool
       /\ interpolate userPool = Some userPoolText
       /\ get_prop Sample.config "identityPool"
          = Some (IdentityPoolId Sample.logins)
       /\ Logins Sample.logins
            !! (("cognito-idp." +:+ regionText +:+ ".amazonaws.com")
                +:+ "/" +:+ userPoolText)
          = Some "jwt".
Proof.
  apply (proj2 (buildLogins_parameters "alice" "jwt" Sample.config)
           Sample.logins).
  vm_compute. reflexivity.
Defined.

(** X5. A config object that lacks [region] and [userPool] does not stop
    [buildLogins]: the login URL is built with the text ["undefined"] in
    their place, and [IdentityPoolId] is [undefined]. *)
Theorem buildLogins_missing_properties (username jwtToken : string)
    (props : gmap string jsval) :
  props !! "region" = None ->
  props !! "userPool" = None ->
  props !! "identityPool" = None ->
  buildLogins username jwtToken (JObj props)
  = Some {| IdentityPoolId := JUndefined;
            Logins := {[ "cognito-idp.undefined.amazonaws.com/undefined"
                         := jwtToken ]};
            LoginId := username |}.
Proof.
  intros Hregion HuserPool Hpool. unfold buildLogins, get_prop.
  rewrite Hregion, HuserPool, Hpool. reflexivity.
Qed.

Lemma buildLogins_missing_properties_witness :
  buildLogins "alice" "jwt" (JObj ∅)
  = Some {| IdentityPoolId := JUndefined;
            Logins := {[ "cognito-idp.undefined.amazonaws.com/undefined"
                         := "jwt" ]};
            LoginId := "alice" |}.
Proof.
  apply (buildLogins_missing_properties "alice" "jwt" ∅); reflexivity.
Defined.

(** X6. [refreshIdentityCredentials] always settles.  It is rejected with a
    TypeError, without calling the exchange service, when the config is
    [undefined] or [null] and when [region] or [userPool] is an object with
    an own [toString] property.  For every other config it calls [refresh]
    once, with the parameters of [buildLogins], and is rejected with the
    service's message exactly when the service reports an error. *)
Theorem refreshIdentityCredentials_settles svc username jwtToken config tr :
  (config = JUndefined \/ config = JNull ->
   run (refreshIdentityCredentials svc username jwtToken config) tr
   = (Rejected (cannot_read_region config), tr))
  /\ ((exists props,
         (get_prop config "region" = Some (JObj props)
          \/ get_prop config "userPool" = Some (JObj props))
         /\ is_Some (props !! "toString")) ->
      run (refreshIdentityCredentials svc username jwtToken config) tr
      = (Rejected cannot_convert, tr))
  /\ (~ (config = JUndefined \/ config = JNull
         \/ exists props,
              (get_prop config "region" = Some (JObj props)
               \/ get_prop config "userPool" = Some (JObj props))
              /\ is_Some (props !! "toString")) ->
      exists logins,
        buildLogins username jwtToken config = Some logins
        /\ run (refreshIdentityCredentials svc username jwtToken config) tr
           = (match creds_refresh svc logins with
              | Some err => Rejected (Message (message err))
              | None => Fulfilled tt
              end, tr ++ [CallRefresh logins]))
  /\ (run (refreshIdentityCredentials svc username jwtToken config) tr).1
     <> Pending.
Proof.
  assert (forall logins,
            buildLogins username jwtToken config = Some logins ->
            run (refreshIdentityCredentials svc username jwtToken config) tr
            = (match creds_refresh svc logins with
               | Some err => Rejected (Message (message err))
               | None => Fulfilled tt
               end, tr ++ [CallRefresh logins])) as Hcalled.
  { intros logins Hbuild. apply run_eq. intros fr.
    by apply refreshIdentityCredentials_called. }
  assert (buildLogins username jwtToken config = None ->
          run (refreshIdentityCredentials svc username jwtToken config) tr
          = (Rejected (buildLogins_error config), tr)) as Hthrown.
  { intros Hbuild. unfold run.
    by rewrite (refreshIdentityCredentials_thrown _ _ _ _ _ Hbuild). }
  split; [|split; [|split]].
  - intros Hconfig. rewrite Hthrown by (apply buildLogins_None; tauto).
    by destruct Hconfig as [-> | ->].
  - intros Hown. rewrite Hthrown by (apply buildLogins_None; tauto).
    unfold buildLogins_error.
    destruct Hown as (props & [Hget|Hget] & _); destruct config; try done.
  - intros Hfine.
    destruct (buildLogins username jwtToken config) as [logins|] eqn:Hbuild.
    + exists logins. split; [done|]. by apply Hcalled.
    + by apply buildLogins_None in Hbuild.
  - destruct (buildLogins username jwtToken config) as [logins|] eqn:Hbuild.
    + rewrite (Hcalled logins eq_refl). by destruct (creds_refresh svc logins).
    + by rewrite Hthrown.
Qed.

Lemma refreshIdentityCredentials_settles_witness :
  run (refreshIdentityCredentials
         (Sample.services mfaRequired (inl Sample.boom) codeOnSuccess
            (Some Sample.boom) None Sample.confirmed)
         "alice" "jwt" JNull) []
  = (Rejected (cannot_read_region JNull), [])
  /\ run (refreshIdentityCredentials
            (Sample.services mfaRequired (inl Sample.boom) codeOnSuccess
               (Some Sample.boom) None Sample.confirmed)
            "alice" "jwt" Sample.unprintable_config) []
     = (Rejected cannot_convert, []).
Proof.
  split.
  - apply (proj1 (refreshIdentityCredentials_settles
             (Sample.services mfaRequired (inl Sample.boom) codeOnSuccess
                (Some Sample.boom) None Sample.confirmed)
             "alice" "jwt" JNull [])).
    right. reflexivity.
  - apply (proj1 (proj2 (refreshIdentityCredentials_settles
             (Sample.services mfaRequired (inl Sample.boom) codeOnSuccess
                (Some Sample.boom) None Sample.confirmed)
             "alice" "jwt" Sample.unprintable_config []))).
    exists (<["toString" := JStr "x"]> ∅). split.
    + left. vm_compute. reflexivity.
    + exists (JStr "x"). vm_compute. reflexivity.
Defined.

(* ===================================================================== *)
(** * Further properties: performLogin *)
(* ===================================================================== *)

(** X7. Called without a user, [performLogin] is rejected with
    ['user is null'] and makes no remote call; called for a user, its
    promise is not rejected, whatever the services answer. *)
Theorem performLogin_rejected_iff_null svc config tr :
  run (performLogin svc None config) tr
  = (Rejected (Message "user is null"), tr)
  /\ (forall user why,
        (run (performLogin svc (Some user) config) tr).1 <> Rejected why).
Proof.
  split.
  - unfold run. by rewrite performLogin_null.
  - intros user why.
    destruct (performLogin_uniform svc user config) as (p & es & Hlogin & Hp).
    rewrite (run_eq (performLogin svc (Some user) config) _ p _ (Hlogin _)).
    simpl. intros ->. done.
Qed.

(** X8. When the session fetch fails, [performLogin] fulfils with
    [LoginFailure] carrying the session error's message, and neither the
    exchange service nor the attribute fetch is called. *)
Theorem performLogin_session_failure svc user config err tr :
  user_getSession svc user = inl err ->
  run (performLogin svc (Some user) config) tr
  = (Fulfilled (LoginFailure user (Message (message err))),
     tr ++ [CallGetSession user]).
Proof. intros Hsession. by rewrite performLogin_run, Hsession. Qed.

Lemma performLogin_session_failure_witness :
  run (performLogin
         {| user_authenticateUser := fun _ _ => onSuccess Sample.session;
            user_getSession := fun _ => inl Sample.boom;
            user_getUserAttributes := fun _ => inr Sample.unverified;
            user_updateAttributes := fun _ _ => None;
            user_getAttributeVerificationCode := fun _ _ => codeOnSuccess;
            user_changePassword := fun _ _ _ => inr "SUCCESS";
            userPool_signUp := fun _ _ _ _ => Sample.confirmed;
            creds_refresh := fun _ => None |}
         (Some Sample.alice) Sample.config) []
  = (Fulfilled (LoginFailure Sample.alice (Message "boom")),
     [CallGetSession Sample.alice]).
Proof.
  apply (performLogin_session_failure _ Sample.alice Sample.config
           Sample.boom []).
  reflexivity.
Defined.

(* ===================================================================== *)
(** * Further properties: authenticate *)
(* ===================================================================== *)

(** X9. When the directory asks for MFA or for a new password,
    [authenticate] fulfils with [MfaRequired] or [NewPasswordRequired] for
    the submitted user, and [authenticateUser] is its only remote call: no
    session is fetched and no credentials are exchanged. *)
Theorem authenticate_interrupted svc username password userPool config tr :
  (user_authenticateUser svc {| Username := username; Pool := userPool |}
     {| ad_Username := username; ad_Password := password |} = mfaRequired ->
   run (authenticate svc username password userPool config) tr
   = (Fulfilled (MfaRequired {| Username := username; Pool := userPool |}),
      tr ++ [CallAuthenticateUser {| Username := username; Pool := userPool |}
               {| ad_Username := username; ad_Password := password |}]))
  /\ (user_authenticateUser svc {| Username := username; Pool := userPool |}
        {| ad_Username := username; ad_Password := password |}
        = newPasswordRequired ->
      run (authenticate svc username password userPool config) tr
      = (Fulfilled
           (NewPasswordRequired {| Username := username; Pool := userPool |}),
         tr ++ [CallAuthenticateUser
                  {| Username := username; Pool := userPool |}
                  {| ad_Username := username; ad_Password := password |}])).
Proof. split; intros Hauth; by rewrite authenticate_run, Hauth. Qed.

Lemma authenticate_interrupted_witness :
  run (authenticate
         (Sample.services mfaRequired (inr Sample.unverified) codeOnSuccess
            None None Sample.confirmed)
         "alice" "pw" Sample.pool Sample.config) []
  = (Fulfilled (MfaRequired Sample.alice),
     [CallAuthenticateUser Sample.alice Sample.alice_creds])
  /\ run (authenticate
            (Sample.services newPasswordRequired (inr Sample.unverified)
               codeOnSuccess None None Sample.confirmed)
            "alice" "pw" Sample.pool Sample.config) []
     = (Fulfilled (NewPasswordRequired Sample.alice),
        [CallAuthenticateUser Sample.alice Sample.alice_creds]).
Proof.
  split.
  - apply (proj1 (authenticate_interrupted
             (Sample.services mfaRequired (inr Sample.unverified) codeOnSuccess
                None None Sample.confirmed)
             "alice" "pw" Sample.pool Sample.config [])).
    reflexivity.
  - apply (proj2 (authenticate_interrupted
             (Sample.services newPasswordRequired (inr Sample.unverified)
                codeOnSuccess None None Sample.confirmed)
             "alice" "pw" Sample.pool Sample.config [])).
    reflexivity.
Defined.

(** X10. With a config that is [undefined] or [null], a successful directory
    authentication cannot end in a login: once the session is fetched,
    reading [config.region] throws, and [authenticate] fulfils with
    [LoginFailure] carrying the TypeError, without calling the exchange
    service or fetching attributes. *)
Theorem authenticate_missing_config svc username password userPool config
    session0 session tr :
  config = JUndefined \/ config = JNull ->
  user_authenticateUser svc {| Username := username; Pool := userPool |}
    {| ad_Username := username; ad_Password := password |}
    = onSuccess session0 ->
  user_getSession svc {| Username := username; Pool := userPool |}
    = inr session ->
  run (authenticate svc username password userPool config) tr
  = (Fulfilled (LoginFailure {| Username := username; Pool := userPool |}
                  (cannot_read_region config)),
     tr ++ [CallAuthenticateUser {| Username := username; Pool := userPool |}
              {| ad_Username := username; ad_Password := password |};
            CallGetSession {| Username := username; Pool := userPool |}]).
Proof.
  intros Hconfig Hauth Hsession.
  rewrite authenticate_run, Hauth, performLogin_run, Hsession.
  destruct Hconfig as [-> | ->]; simpl; by rewrite <- app_assoc.
Qed.

Lemma authenticate_missing_config_witness :
  run (authenticate
         (Sample.services (onSuccess Sample.session) (inr Sample.unverified)
            codeOnSuccess None None Sample.confirmed)
         "alice" "pw" Sample.pool JUndefined) []
  = (Fulfilled (LoginFailure Sample.alice (cannot_read_region JUndefined)),
     [CallAuthenticateUser Sample.alice Sample.alice_creds;
      CallGetSession Sample.alice]).
Proof.
  apply (authenticate_missing_config
           (Sample.services (onSuccess Sample.session) (inr Sample.unverified)
              codeOnSuccess None None Sample.confirmed)
           "alice" "pw" Sample.pool JUndefined Sample.session Sample.session []).
  - left. reflexivity.
  - reflexivity.
  - reflexivity.
Defined.

(** Closes [e ∉ es] for an explicit list [es] of events of other kinds. *)
Ltac not_in_trace :=
  simpl; rewrite ?not_elem_of_cons; repeat split; try done;
  apply not_elem_of_nil.

(** X11. When verification is not mandatory, [authenticate] never asks the
    directory for a verification code, whatever the services answer, and
    its outcome is neither [EmailVerificationRequired] nor
    [EmailVerificationFailed]. *)
Theorem authenticate_optional_verification svc username password userPool
    config :
  emailVerificationIsMandatory config = false ->
  (forall user attribute,
     CallGetAttributeVerificationCode user attribute
     ∉ (run (authenticate svc username password userPool config) []).2)
  /\ (forall user attributes,
        (run (authenticate svc username password userPool config) []).1
        <> Fulfilled (EmailVerificationRequired user attributes))
  /\ (forall user why attributes,
        (run (authenticate svc username password userPool config) []).1
        <> Fulfilled (EmailVerificationFailed user why attributes)).
Proof.
  intros Hoptional.
  rewrite authenticate_run.
  destruct (user_authenticateUser svc _ _) as [session0|err| |] eqn:Hauth.
  - rewrite performLogin_run.
    destruct (user_getSession svc _) as [err|session] eqn:Hsession.
    { repeat split; try done. intros user attribute. simpl. not_in_trace. }
    destruct (buildLogins _ _ _) as [logins|] eqn:Hbuild.
    2:{ repeat split; try done. intros user attribute. simpl. not_in_trace. }
    destruct (creds_refresh svc logins) as [err|] eqn:Hrefresh.
    { repeat split; try done. intros user attribute. simpl. not_in_trace. }
    rewrite loginOrVerifyEmail_run, Hoptional.
    destruct (user_getUserAttributes svc _) as [err|fetched] eqn:Hfetch;
      simpl; repeat split; try done; intros user attribute; not_in_trace.
  - simpl. repeat split.
    + intros user attribute. not_in_trace.
    + intros user attributes. by destruct (String.eqb _ _).
    + intros user why attributes. by destruct (String.eqb _ _).
  - repeat split; try done. intros user attribute. simpl. not_in_trace.
  - repeat split; try done. intros user attribute. simpl. not_in_trace.
Qed.

Lemma authenticate_optional_verification_witness :
  (forall user attribute,
     CallGetAttributeVerificationCode user attribute
     ∉ (run (authenticate
               (Sample.services (onSuccess Sample.session)
                  (inr Sample.unverified) inputVerificationCode None None
                  Sample.confirmed)
               "alice" "pw" Sample.pool Sample.config_optional) []).2)
  /\ (forall user attributes,
        (run (authenticate
                (Sample.services (onSuccess Sample.session)
                   (inr Sample.unverified) inputVerificationCode None None
                   Sample.confirmed)
                "alice" "pw" Sample.pool Sample.config_optional) []).1
        <> Fulfilled (EmailVerificationRequired user attributes))
  /\ (forall user why attributes,
        (run (authenticate
                (Sample.services (onSuccess Sample.session)
                   (inr Sample.unverified) inputVerificationCode None None
                   Sample.confirmed)
                "alice" "pw" Sample.pool Sample.config_optional) []).1
        <> Fulfilled (EmailVerificationFailed user why attributes)).
Proof.
  apply (authenticate_optional_verification
           (Sample.services (onSuccess Sample.session) (inr Sample.unverified)
              inputVerificationCode None None Sample.confirmed)
           "alice" "pw" Sample.pool Sample.config_optional).
  vm_compute. reflexivity.
Defined.

(** X12. [authenticate] fulfils with [LoggedIn] only after every step has
    succeeded: the directory accepted the credentials, the session was
    fetched, the exchange service issued credentials and the attributes
    were fetched.  The outcome carries the fetched attributes, and then
    verification is not mandatory, or [email_verified] is ["true"], or the
    code request answered that no input is needed. *)
Theorem authenticate_logged_in_only_if svc username password userPool config
    tr user attributes :
  (run (authenticate svc username password userPool config) tr).1
  = Fulfilled (LoggedIn user attributes) ->
  user = {| Username := username; Pool := userPool |}
  /\ exists session0 session logins fetched,
       user_authenticateUser svc user
         {| ad_Username := username; ad_Password := password |}
       = onSuccess session0
       /\ user_getSession svc user = inr session
       /\ buildLogins username (getJwtToken (getIdToken session)) config
          = Some logins
       /\ creds_refresh svc logins = None
       /\ user_getUserAttributes svc user = inr fetched
       /\ attributes = collect_attributes fetched
       /\ (emailVerificationIsMandatory config = false
           \/ attributes !! "email_verified" = Some "true"
           \/ user_getAttributeVerificationCode svc user "email"
              = codeOnSuccess).
Proof.
  rewrite authenticate_run.
  destruct (user_authenticateUser svc _ _) as [session0|err| |] eqn:Hauth;
    [|by simpl; destruct (String.eqb _ _)|done|done].
  rewrite performLogin_run.
  destruct (user_getSession svc _) as [err|session] eqn:Hsession; [done|].
  destruct (buildLogins _ _ _) as [logins|] eqn:Hbuild; [|done].
  destruct (creds_refresh svc logins) as [err|] eqn:Hrefresh; [done|].
  rewrite loginOrVerifyEmail_run.
  destruct (user_getUserAttributes svc _) as [err|fetched] eqn:Hfetch; [done|].
  destruct (emailVerificationIsMandatory config) eqn:Hmandatory; simpl.
  - unfold email_not_verified. case_bool_decide as Hverified; simpl.
    + intros [= <- <-]. split; [done|].
      exists session0, session, logins, fetched. repeat split; try done.
      right. by left.
    + destruct (user_getAttributeVerificationCode svc _ _) eqn:Hcode;
        [|done|done].
      intros [= <- <-]. split; [done|].
      exists session0, session, logins, fetched. repeat split; try done.
      right. by right.
  - intros [= <- <-]. split; [done|].
    exists session0, session, logins, fetched. repeat split; try done.
    by left.
Qed.

Lemma authenticate_logged_in_only_if_witness :
  Sample.alice = {| Username := "alice"; Pool := Sample.pool |}
  /\ exists session0 session logins fetched,
       user_authenticateUser
         (Sample.services (onSuccess Sample.session) (inr Sample.unverified)
            codeOnSuccess None None Sample.confirmed)
         Sample.alice {| ad_Username := "alice"; ad_Password := "pw" |}
       = onSuccess session0
       /\ user_getSession
            (Sample.services (onSuccess Sample.session) (inr Sample.unverified)
               codeOnSuccess None None Sample.confirmed)
            Sample.alice = inr session
       /\ buildLogins "alice" (getJwtToken (getIdToken session))
            Sample.config_optional = Some logins
       /\ creds_refresh
            (Sample.services (onSuccess Sample.session) (inr Sample.unverified)
               codeOnSuccess None None Sample.confirmed)
            logins = None
       /\ user_getUserAttributes
            (Sample.services (onSuccess Sample.session) (inr Sample.unverified)
               codeOnSuccess None None Sample.confirmed)
            Sample.alice = inr fetched
       /\ collect_attributes Sample.unverified = collect_attributes fetched
       /\ (emailVerificationIsMandatory Sample.config_optional = false
           \/ collect_attributes Sample.unverified !! "email_verified"
              = Some "true"
           \/ user_getAttributeVerificationCode
                (Sample.services (onSuccess Sample.session)
                   (inr Sample.unverified) codeOnSuccess None None
                   Sample.confirmed)
                Sample.alice "email" = codeOnSuccess).
Proof.
  apply (authenticate_logged_in_only_if
           (Sample.services (onSuccess Sample.session) (inr Sample.unverified)
              codeOnSuccess None None Sample.confirmed)
           "alice" "pw" Sample.pool Sample.config_optional []
           Sample.alice (collect_attributes Sample.unverified)).
  vm_compute. reflexivity.
Defined.

(** X13. Every outcome [authenticate] fulfils with carries the user handle
    built from the submitted username and pool. *)
Theorem authenticate_outcome_user svc username password userPool config tr o :
  (run (authenticate svc username password userPool config) tr).1
  = Fulfilled o ->
  outcome_user o = Some {| Username := username; Pool := userPool |}.
Proof.
  rewrite authenticate_run.
  destruct (user_authenticateUser svc _ _) as [session0|err| |] eqn:Hauth.
  - rewrite performLogin_run.
    destruct (user_getSession svc _) as [err|session]; [by intros [= <-]|].
    destruct (buildLogins _ _ _) as [logins|]; [|by intros [= <-]].
    destruct (creds_refresh svc logins) as [err|]; [by intros [= <-]|].
    rewrite loginOrVerifyEmail_run.
    destruct (user_getUserAttributes svc _) as [err|fetched]; [done|].
    destruct (_ && _); [|by intros [= <-]].
    destruct (user_getAttributeVerificationCode svc _ _); by intros [= <-].
  - simpl. destruct (String.eqb _ _); by intros [= <-].
  - by intros [= <-].
  - by intros [= <-].
Qed.

Lemma authenticate_outcome_user_witness :
  outcome_user (ConfirmationRequired Sample.alice)
  = Some {| Username := "alice"; Pool := Sample.pool |}.
Proof.
  apply (authenticate_outcome_user
           (Sample.services (onFailure Sample.unconfirmed)
              (inr Sample.unverified) codeOnSuccess None None Sample.confirmed)
           "alice" "pw" Sample.pool Sample.config []).
  reflexivity.
Defined.

(** X14. A call of [authenticate] makes at least one and at most five
    remote calls, and the first is [authenticateUser] with the submitted
    credentials. *)
Theorem authenticate_remote_calls svc username password userPool config :
  exists rest,
    (run (authenticate svc username password userPool config) []).2
    = CallAuthenticateUser {| Username := username; Pool := userPool |}
        {| ad_Username := username; ad_Password := password |} :: rest
    /\ length (filter is_remote_call rest) <= 4.
Proof.
  rewrite authenticate_run.
  destruct (user_authenticateUser svc _ _) as [session0|err| |] eqn:Hauth;
    [|eexists; split; [reflexivity|simpl; lia]..].
  rewrite performLogin_run.
  destruct (user_getSession svc _) as [err|session];
    [eexists; split; [reflexivity|simpl; lia]|].
  destruct (buildLogins _ _ _) as [logins|];
    [|eexists; split; [reflexivity|simpl; lia]].
  destruct (creds_refresh svc logins) as [err|];
    [eexists; split; [reflexivity|simpl; lia]|].
  rewrite loginOrVerifyEmail_run.
  destruct (user_getUserAttributes svc _) as [err|fetched];
    [eexists; split; [reflexivity|simpl; lia]|].
  destruct (_ && _); eexists; (split; [reflexivity|simpl; lia]).
Qed.

(* ===================================================================== *)
(** * Further properties: the directory wrappers and the gate *)
(* ===================================================================== *)

(** X15. [changePassword], [getUserAttributes] and
    [sendAttributeVerificationCode] always settle after exactly one remote
    call: each is rejected exactly when the directory reports an error, with
    the error's message, and the code request fulfils with [true] exactly
    when the directory asks for a code to be entered. *)
Theorem directory_wrappers_settle svc user tr :
  (forall oldPassword newPassword,
     run (changePassword svc user oldPassword newPassword) tr
     = (match user_changePassword svc user oldPassword newPassword with
        | inl err => Rejected (Message (message err))
        | inr result => Fulfilled result
        end, tr ++ [CallChangePassword user oldPassword newPassword]))
  /\ run (getUserAttributes svc user) tr
     = (match user_getUserAttributes svc user with
        | inl err => Rejected (Message (message err))
        | inr result => Fulfilled (collect_attributes result)
        end, tr ++ [CallGetUserAttributes user])
  /\ (forall attribute,
        (run (sendAttributeVerificationCode svc user attribute) tr).2
        = tr ++ [CallGetAttributeVerificationCode user attribute]
        /\ ((run (sendAttributeVerificationCode svc user attribute) tr).1
            = Fulfilled true
            <-> user_getAttributeVerificationCode svc user attribute
                = inputVerificationCode)
        /\ ((run (sendAttributeVerificationCode svc user attribute) tr).1
            = Fulfilled false
            <-> user_getAttributeVerificationCode svc user attribute
                = codeOnSuccess)
        /\ (forall why,
              (run (sendAttributeVerificationCode svc user attribute) tr).1
              = Rejected why
              <-> exists err,
                    user_getAttributeVerificationCode svc user attribute
                    = codeOnFailure err
                    /\ why = Message (message err))).
Proof.
  split; [|split].
  - intros oldPassword newPassword. apply run_eq. intros fr.
    apply changePassword_eq.
  - apply run_eq. intros fr. apply getUserAttributes_eq.
  - intros attribute.
    rewrite (run_eq (sendAttributeVerificationCode svc user attribute) tr _ _
               (fun fr => sendAttributeVerificationCode_eq svc user attribute fr)).
    simpl. split; [done|].
    destruct (user_getAttributeVerificationCode svc user attribute) as [| |err];
      repeat split; try done.
    + by intros (err & ? & _).
    + by intros (err & ? & _).
    + intros [= <-]. by exists err.
    + by intros (err' & [= <-] & ->).
Qed.

(** X16. [emailVerificationFlow] always fulfils, after exactly one code
    request for the ["email"] attribute: with [EmailVerificationRequired]
    when a code must be entered, with [LoggedIn] when no input is needed,
    and with [EmailVerificationFailed] carrying the directory's message when
    the request fails; the outcome carries the user and the attributes it
    was given. *)
Theorem emailVerificationFlow_always_fulfils svc user attributes tr :
  run (emailVerificationFlow svc user attributes) tr
  = (Fulfilled
       match user_getAttributeVerificationCode svc user "email" with
       | inputVerificationCode => EmailVerificationRequired user attributes
       | codeOnSuccess => LoggedIn user attributes
       | codeOnFailure err =>
           EmailVerificationFailed user (Message (message err)) attributes
       end,
     tr ++ [CallGetAttributeVerificationCode user "email"]).
Proof.
  apply run_eq. intros fr. rewrite emailVerificationFlow_eq.
  by destruct (user_getAttributeVerificationCode svc user "email").
Qed.

(** X17. The promise of [loginOrVerifyEmail] is never rejected, whatever the
    services answer, and it stays pending exactly when the attribute fetch
    fails. *)
Theorem loginOrVerifyEmail_never_rejects svc user config tr :
  (forall why, (run (loginOrVerifyEmail svc user config) tr).1 <> Rejected why)
  /\ ((run (loginOrVerifyEmail svc user config) tr).1 = Pending
      <-> exists err, user_getUserAttributes svc user = inl err).
Proof.
  rewrite loginOrVerifyEmail_run.
  destruct (user_getUserAttributes svc user) as [err|fetched].
  - split; [done|]. split; [by exists err|done].
  - destruct (_ && _); (split; [done|]); split; try done;
      by intros [err ?].
Qed.

(** X18. When the attributes arrive and either verification is not
    mandatory or [email_verified] is ["true"], [loginOrVerifyEmail] fulfils
    with [LoggedIn] carrying the fetched attributes, and the fetch is its
    only remote call: no verification code is requested. *)
Theorem loginOrVerifyEmail_logs_in svc user config fetched tr :
  user_getUserAttributes svc user = inr fetched ->
  emailVerificationIsMandatory config = false
  \/ collect_attributes fetched !! "email_verified" = Some "true" ->
  run (loginOrVerifyEmail svc user config) tr
  = (Fulfilled (LoggedIn user (collect_attributes fetched)),
     tr ++ [CallGetUserAttributes user]).
Proof.
  intros Hfetch Hpass. rewrite loginOrVerifyEmail_run, Hfetch.
  destruct Hpass as [Hoptional|Hverified].
  - by rewrite Hoptional.
  - unfold email_not_verified. rewrite bool_decide_eq_true_2 by done.
    by rewrite andb_false_r.
Qed.

Lemma loginOrVerifyEmail_logs_in_witness :
  run (loginOrVerifyEmail
         (Sample.services (onSuccess Sample.session)
            (inr [{| Name := "email_verified"; Value := "true" |}])
            inputVerificationCode None None Sample.confirmed)
         Sample.alice Sample.config) []
  = (Fulfilled (LoggedIn Sample.alice
                  (collect_attributes
                     [{| Name := "email_verified"; Value := "true" |}])),
     [CallGetUserAttributes Sample.alice]).
Proof.
  apply (loginOrVerifyEmail_logs_in
           (Sample.services (onSuccess Sample.session)
              (inr [{| Name := "email_verified"; Value := "true" |}])
              inputVerificationCode None None Sample.confirmed)
           Sample.alice Sample.config
           [{| Name := "email_verified"; Value := "true" |}] []).
  - reflexivity.
  - right. vm_compute. reflexivity.
Defined.

(* ===================================================================== *)
(** * Further properties: registration and attribute update *)
(* ===================================================================== *)

(** X19. A registration the directory confirms at once, followed by a
    successful authentication, session fetch, credential exchange and
    attribute fetch, ends in [LoggedIn] when verification is not mandatory
    or [email_verified] is ["true"]: the five remote calls are made in that
    order, and the outcome carries the user built from the submitted
    username and pool (not [result.user]) and the fetched attributes. *)
Theorem registerUser_logs_in svc userPool config username password attributes
    result session0 session logins fetched tr :
  userPool_signUp svc userPool username password (mkAttrList attributes)
    = inr result ->
  userConfirmed result <> JBool false ->
  user_authenticateUser svc {| Username := username; Pool := userPool |}
    {| ad_Username := username; ad_Password := password |}
    = onSuccess session0 ->
  user_getSession svc {| Username := username; Pool := userPool |}
    = inr session ->
  buildLogins username (getJwtToken (getIdToken session)) config
    = Some logins ->
  creds_refresh svc logins = None ->
  user_getUserAttributes svc {| Username := username; Pool := userPool |}
    = inr fetched ->
  emailVerificationIsMandatory config = false
  \/ collect_attributes fetched !! "email_verified" = Some "true" ->
  run (registerUser svc userPool config username password attributes) tr
  = (Fulfilled (LoggedIn {| Username := username; Pool := userPool |}
                  (collect_attributes fetched)),
     tr ++ [CallSignUp userPool username password (mkAttrList attributes);
            CallAuthenticateUser {| Username := username; Pool := userPool |}
              {| ad_Username := username; ad_Password := password |};
            CallGetSession {| Username := username; Pool := userPool |};
            CallRefresh logins;
            CallGetUserAttributes {| Username := username; Pool := userPool |}]).
Proof.
  intros HsignUp Hconfirmed Hauth Hsession Hbuild Hrefresh Hfetch Hpass.
  rewrite (registerUser_authenticates svc _ _ _ _ _ result) by
    auto using strict_eq_false_other.
  rewrite authenticate_run, Hauth, performLogin_run, Hsession. simpl.
  rewrite Hbuild, Hrefresh.
  rewrite (loginOrVerifyEmail_run svc), Hfetch.
  assert (emailVerificationIsMandatory config
          && email_not_verified (collect_attributes fetched) = false) as ->.
  { destruct Hpass as [->|Hverified]; [done|].
    unfold email_not_verified. rewrite bool_decide_eq_true_2 by done.
    by rewrite andb_false_r. }
  by rewrite <- !app_assoc.
Qed.

Lemma registerUser_logs_in_witness :
  run (registerUser
         (Sample.services (onSuccess Sample.session)
            (inr [{| Name := "email"; Value := "a@b.com" |};
                  {| Name := "email_verified"; Value := "true" |}])
            inputVerificationCode None None Sample.confirmed)
         Sample.pool Sample.config "alice" "pw" (<["email" := "a@b.com"]> ∅))
    []
  = (Fulfilled
       (LoggedIn Sample.alice
          (collect_attributes
             [{| Name := "email"; Value := "a@b.com" |};
              {| Name := "email_verified"; Value := "true" |}])),
     [] ++ [CallSignUp Sample.pool "alice" "pw"
              (mkAttrList (<["email" := "a@b.com"]> ∅));
            CallAuthenticateUser Sample.alice Sample.alice_creds;
            CallGetSession Sample.alice;
            CallRefresh Sample.logins;
            CallGetUserAttributes Sample.alice]).
Proof.
  apply (registerUser_logs_in
           (Sample.services (onSuccess Sample.session)
              (inr [{| Name := "email"; Value := "a@b.com" |};
                    {| Name := "email_verified"; Value := "true" |}])
              inputVerificationCode None None Sample.confirmed)
           Sample.pool Sample.config "alice" "pw" (<["email" := "a@b.com"]> ∅)
           {| su_user := Sample.alice; userConfirmed := JBool true |}
           Sample.session Sample.session Sample.logins
           [{| Name := "email"; Value := "a@b.com" |};
            {| Name := "email_verified"; Value := "true" |}] []).
  - reflexivity.
  - discriminate.
  - reflexivity.
  - reflexivity.
  - vm_compute. reflexivity.
  - reflexivity.
  - reflexivity.
  - right. vm_compute. reflexivity.
Defined.

(** X20. [registerUser] is rejected exactly when the sign-up fails, with the
    directory's message: once the sign-up has succeeded nothing rejects its
    promise, whatever the later steps answer. *)
Theorem registerUser_rejected_iff svc userPool config username password
    attributes tr why :
  (run (registerUser svc userPool config username password attributes) tr).1
  = Rejected why
  <-> exists err,
        userPool_signUp svc userPool username password (mkAttrList attributes)
        = inl err
        /\ why = Message (message err).
Proof.
  destruct (userPool_signUp svc userPool username password
              (mkAttrList attributes)) as [err|result] eqn:HsignUp.
  - rewrite (run_eq _ tr _ _
               (fun fr => registerUser_refused svc userPool config username
                            password attributes err fr HsignUp)).
    simpl. split.
    + intros [= <-]. by exists err.
    + by intros (err' & [= <-] & ->).
  - split; [|by intros (err & ? & _)].
    destruct (strict_eq_false (userConfirmed result)) eqn:Hfalse.
    + by rewrite (run_eq _ tr _ _
                    (fun fr => registerUser_unconfirmed svc userPool config
                                 username password attributes result fr
                                 HsignUp Hfalse)).
    + rewrite (registerUser_authenticates svc _ _ _ _ _ result) by done.
      destruct (authenticate_uniform svc username password userPool config)
        as (p & rest & Hflow & Hp).
      rewrite (run_eq (authenticate svc username password userPool config)
                 _ p _ (Hflow _)).
      simpl. intros ->. done.
Qed.

(** X21. [updateAttributes] fulfils with [AttributesUpdated] only when the
    update succeeded and verification is not mandatory, and the outcome then
    carries the submitted attributes; with mandatory verification it never
    produces [AttributesUpdated]. *)
Theorem updateAttributes_updated_only_if svc user attributes config tr updated :
  (run (updateAttributes svc user attributes config) tr).1
  = Fulfilled (AttributesUpdated updated) ->
  updated = attributes
  /\ user_updateAttributes svc user (mkAttrList attributes) = None
  /\ emailVerificationIsMandatory config = false.
Proof.
  destruct (user_updateAttributes svc user (mkAttrList attributes))
    as [err|] eqn:Hupdate.
  { by rewrite (run_eq _ tr _ _
                  (fun fr => updateAttributes_refused svc user attributes
                               config err fr Hupdate)). }
  destruct (emailVerificationIsMandatory config) eqn:Hmandatory.
  - rewrite (updateAttributes_gated svc user attributes config tr Hupdate
               Hmandatory).
    rewrite loginOrVerifyEmail_run, Hmandatory.
    destruct (user_getUserAttributes svc user) as [err|fetched]; [done|].
    simpl. destruct (email_not_verified _); [|done].
    by destruct (user_getAttributeVerificationCode svc user "email").
  - rewrite (run_eq _ tr _ _
               (fun fr => updateAttributes_optional svc user attributes
                            config fr Hupdate Hmandatory)).
    by intros [= <-].
Qed.

Lemma updateAttributes_updated_only_if_witness :
  Sample.attributes = Sample.attributes
  /\ user_updateAttributes
       (Sample.services (onSuccess Sample.session) (inr Sample.unverified)
          inputVerificationCode None None Sample.confirmed)
       Sample.alice (mkAttrList Sample.attributes) = None
  /\ emailVerificationIsMandatory Sample.config_optional = false.
Proof.
  apply (updateAttributes_updated_only_if
           (Sample.services (onSuccess Sample.session) (inr Sample.unverified)
              inputVerificationCode None None Sample.confirmed)
           Sample.alice Sample.attributes Sample.config_optional []
           Sample.attributes).
  vm_compute. reflexivity.
Defined.

(** X22. [updateAttributes] is rejected exactly when the directory refuses
    the update, with its message; and it is never settled exactly when the
    update succeeded, verification is mandatory and the attribute fetch of
    the gate fails. *)
Theorem updateAttributes_settlement svc user attributes config tr :
  (forall why,
     (run (updateAttributes svc user attributes config) tr).1 = Rejected why
     <-> exists err,
           user_updateAttributes svc user (mkAttrList attributes) = Some err
           /\ why = Message (message err))
  /\ ((run (updateAttributes svc user attributes config) tr).1 = Pending
      <-> user_updateAttributes svc user (mkAttrList attributes) = None
          /\ emailVerificationIsMandatory config = true
          /\ exists err, user_getUserAttributes svc user = inl err).
Proof.
  destruct (user_updateAttributes svc user (mkAttrList attributes))
    as [err|] eqn:Hupdate.
  { rewrite (run_eq _ tr _ _
               (fun fr => updateAttributes_refused svc user attributes
                            config err fr Hupdate)).
    simpl. split.
    - intros why. split.
      + intros [= <-]. by exists err.
      + by intros (err' & [= <-] & ->).
    - split; [done|by intros [? _]]. }
  destruct (emailVerificationIsMandatory config) eqn:Hmandatory.
  - rewrite (updateAttributes_gated svc user attributes config tr Hupdate
               Hmandatory).
    rewrite loginOrVerifyEmail_run.
    destruct (user_getUserAttributes svc user) as [err|fetched]; simpl.
    + split.
      * intros why. split; [done|by intros (err' & ? & _)].
      * split; [|done]. intros _. repeat split. by exists err.
    + destruct (_ && _); simpl; split;
        try (intros why; split; [done|by intros (err' & ? & _)]);
        (split; [done|by intros (_ & _ & err & ?)]).
  - rewrite (run_eq _ tr _ _
               (fun fr => updateAttributes_optional svc user attributes
                            config fr Hupdate Hmandatory)).
    simpl. split.
    + intros why. split; [done|by intros (err & ? & _)].
    + split; [done|]. by intros (_ & ? & _).
Qed.

(* ===================================================================== *)
(** * Further properties: the login form's own authenticate *)
(* ===================================================================== *)

Lemma login_component_failure_dispatched_witness :
  run (LoginComponent.authenticate
         (Sample.services (onFailure Sample.unconfirmed) (inl Sample.boom)
            codeOnSuccess None None Sample.confirmed)
         (fun A user => mret tt) "alice" "pw" Sample.pool Sample.config) []
  = (tt,
     [] ++ [CallAuthenticateUser Sample.alice Sample.alice_creds;
            Dispatch (LoginFailure Sample.alice
                        (Message "User is not confirmed."))]).
Proof.
  apply (login_component_failure_dispatched
           (Sample.services (onFailure Sample.unconfirmed) (inl Sample.boom)
              codeOnSuccess None None Sample.confirmed)
           (fun A user => mret tt) "alice" "pw" Sample.pool Sample.config
           Sample.unconfirmed []).
  reflexivity.
Defined.

(** X24. After a successful directory authentication, the [authenticate] of
    [Login.jsx] exchanges the token of the session handed to [onSuccess],
    without a [getSession] call.  When the exchange fails it dispatches
    [LoginFailure] with the exchange service's message and does not run
    [postLoginDispatch]; when it succeeds it dispatches nothing itself and
    hands over to [postLoginDispatch] for the user. *)
Theorem login_component_exchange svc postLoginDispatch username password
    userPool config session logins tr :
  user_authenticateUser svc {| Username := username; Pool := userPool |}
    {| ad_Username := username; ad_Password := password |}
    = onSuccess session ->
  buildLogins username (getJwtToken (getIdToken session)) config
    = Some logins ->
  (forall err,
     creds_refresh svc logins = Some err ->
     run (LoginComponent.authenticate svc postLoginDispatch username password
            userPool config) tr
     = (tt,
        tr ++ [CallAuthenticateUser {| Username := username; Pool := userPool |}
                 {| ad_Username := username; ad_Password := password |};
               CallRefresh logins;
               Dispatch (LoginFailure
                           {| Username := username; Pool := userPool |}
                           (Message (message err)))]))
  /\ (creds_refresh svc logins = None ->
      run (LoginComponent.authenticate svc postLoginDispatch username password
             userPool config) tr
      = run (postLoginDispatch Empty_set
               {| Username := username; Pool := userPool |})
          (tr ++ [CallAuthenticateUser
                    {| Username := username; Pool := userPool |}
                    {| ad_Username := username; ad_Password := password |};
                  CallRefresh logins])).
Proof.
  intros Hauth Hbuild. split.
  - intros err Hrefresh. apply run_eq. intros fr.
    unfold LoginComponent.authenticate, LoginComponent.dispatch. exec_unfold.
    rewrite Hauth, Hbuild. simpl. rewrite Hrefresh. simpl.
    by rewrite <- !app_assoc.
  - intros Hrefresh. unfold run, LoginComponent.authenticate. exec_unfold.
    rewrite Hauth, Hbuild. simpl. rewrite Hrefresh. simpl.
    by rewrite <- !app_assoc.
Qed.

Lemma login_component_exchange_witness :
  run (LoginComponent.authenticate
         (Sample.services (onSuccess Sample.session) (inl Sample.boom)
            codeOnSuccess (Some Sample.boom) None Sample.confirmed)
         (fun A user => mret tt) "alice" "pw" Sample.pool Sample.config) []
  = (tt,
     [] ++ [CallAuthenticateUser Sample.alice Sample.alice_creds;
            CallRefresh Sample.logins;
            Dispatch (LoginFailure Sample.alice (Message "boom"))]).
Proof.
  apply (proj1 (login_component_exchange
           (Sample.services (onSuccess Sample.session) (inl Sample.boom)
              codeOnSuccess (Some Sample.boom) None Sample.confirmed)
           (fun A user => mret tt) "alice" "pw" Sample.pool Sample.config
           Sample.session Sample.logins [] eq_refl
           ltac:(vm_compute; reflexivity)) Sample.boom).
  reflexivity.
Defined.

(** X25. With a config that is [undefined] or [null], the [onSuccess]
    callback of [Login.jsx] throws while building the login URL: nothing is
    dispatched, the exchange service is not called and [postLoginDispatch]
    is not run, so the store never learns the result. *)
Theorem login_component_missing_config svc postLoginDispatch username password
    userPool config session tr :
  config = JUndefined \/ config = JNull ->
  user_authenticateUser svc {| Username := username; Pool := userPool |}
    {| ad_Username := username; ad_Password := password |}
    = onSuccess session ->
  run (LoginComponent.authenticate svc postLoginDispatch username password
         userPool config) tr
  = (tt,
     tr ++ [CallAuthenticateUser {| Username := username; Pool := userPool |}
              {| ad_Username := username; ad_Password := password |};
            UncaughtException (cannot_read_region config)]).
Proof.
  intros Hconfig Hauth. apply run_eq. intros fr.
  unfold LoginComponent.authenticate. exec_unfold. rewrite Hauth.
  destruct Hconfig as [-> | ->]; simpl; by rewrite <- app_assoc.
Qed.

Lemma login_component_missing_config_witness :
  run (LoginComponent.authenticate
         (Sample.services (onSuccess Sample.session) (inl Sample.boom)
            codeOnSuccess None None Sample.confirmed)
         (fun A user => emit (Dispatch (LoggedIn user ∅)))
         "alice" "pw" Sample.pool JNull) []
  = (tt,
     [] ++ [CallAuthenticateUser Sample.alice Sample.alice_creds;
            UncaughtException (cannot_read_region JNull)]).
Proof.
  apply (login_component_missing_config
           (Sample.services (onSuccess Sample.session) (inl Sample.boom)
              codeOnSuccess None None Sample.confirmed)
           (fun A user => emit (Dispatch (LoggedIn user ∅)))
           "alice" "pw" Sample.pool JNull Sample.session []).
  - right. reflexivity.
  - reflexivity.
Defined.

(** X26. Whenever the directory does not accept the credentials (a failure,
    an MFA request or a new-password request), the [authenticate] of
    [Login.jsx] dispatches exactly one action, for the submitted user,
    right after its only remote call, and [postLoginDispatch] is not run. *)
Theorem login_component_dispatches_once svc postLoginDispatch username
    password userPool config tr :
  (forall session,
     user_authenticateUser svc {| Username := username; Pool := userPool |}
       {| ad_Username := username; ad_Password := password |}
     <> onSuccess session) ->
  exists action,
    run (LoginComponent.authenticate svc postLoginDispatch username password
           userPool config) tr
    = (tt,
       tr ++ [CallAuthenticateUser {| Username := username; Pool := userPool |}
                {| ad_Username := username; ad_Password := password |};
              Dispatch action])
    /\ outcome_user action = Some {| Username := username; Pool := userPool |}.
Proof.
  intros Hrefused.
  destruct (user_authenticateUser svc _ _) as [session|err| |] eqn:Hauth;
    [by destruct (Hrefused session)|..].
  - exists (LoginFailure {| Username := username; Pool := userPool |}
              (Message (message err))).
    split; [|done]. apply run_eq. intros fr.
    unfold LoginComponent.authenticate, LoginComponent.dispatch. exec_unfold.
    rewrite Hauth. simpl. by rewrite <- app_assoc.
  - exists (MfaRequired {| Username := username; Pool := userPool |}).
    split; [|done]. apply run_eq. intros fr.
    unfold LoginComponent.authenticate, LoginComponent.dispatch. exec_unfold.
    rewrite Hauth. simpl. by rewrite <- app_assoc.
  - exists (NewPasswordRequired {| Username := username; Pool := userPool |}).
    split; [|done]. apply run_eq. intros fr.
    unfold LoginComponent.authenticate, LoginComponent.dispatch. exec_unfold.
    rewrite Hauth. simpl. by rewrite <- app_assoc.
Qed.

Lemma login_component_dispatches_once_witness :
  exists action,
    run (LoginComponent.authenticate
           (Sample.services mfaRequired (inl Sample.boom) codeOnSuccess None
              None Sample.confirmed)
           (fun A user => mret tt) "alice" "pw" Sample.pool Sample.config) []
    = (tt,
       [] ++ [CallAuthenticateUser Sample.alice Sample.alice_creds;
              Dispatch action])
    /\ outcome_user action = Some Sample.alice.
Proof.
  apply (login_component_dispatches_once
           (Sample.services mfaRequired (inl Sample.boom) codeOnSuccess None
              None Sample.confirmed)
           (fun A user => mret tt) "alice" "pw" Sample.pool Sample.config []).
  intros session. discriminate.
Defined.

(** X27. In the properties [mergeProps] builds, [onSubmit] is always the
    callback that hands the entered username and password to the
    [authenticator] of the dispatch properties, with the [userPool] and the
    [config] of the state properties; [username], [error], [config] and
    [userPool] always come from the state properties, whatever the
    component's own properties hold under these names; an own property
    named [__proto__] is not copied; and every other own property passes
    through unchanged. *)
Theorem mergeProps_precedence stateProps dispatchProps
    (ownProps : gmap string LoginComponent.prop) :
  LoginComponent.mergeProps stateProps dispatchProps ownProps !! "onSubmit"
  = Some (LoginComponent.PropCallback (fun username password =>
            LoginComponent.authenticator dispatchProps username password
              (LoginComponent.sp_userPool stateProps)
              (LoginComponent.sp_config stateProps)))
  /\ LoginComponent.mergeProps stateProps dispatchProps ownProps !! "username"
     = Some (LoginComponent.PropValue
               (JStr (LoginComponent.sp_username stateProps)))
  /\ LoginComponent.mergeProps stateProps dispatchProps ownProps !! "error"
     = Some (LoginComponent.PropValue (LoginComponent.sp_error stateProps))
  /\ LoginComponent.mergeProps stateProps dispatchProps ownProps !! "config"
     = Some (LoginComponent.PropValue (LoginComponent.sp_config stateProps))
  /\ LoginComponent.mergeProps stateProps dispatchProps ownProps !! "userPool"
     = Some (LoginComponent.PropPool (LoginComponent.sp_userPool stateProps))
  /\ LoginComponent.mergeProps stateProps dispatchProps ownProps !! "__proto__"
     = None
  /\ (forall name,
        name ∉ ["onSubmit"; "username"; "error"; "config"; "userPool";
                "__proto__"] ->
        LoginComponent.mergeProps stateProps dispatchProps ownProps !! name
        = ownProps !! name).
Proof.
  unfold LoginComponent.mergeProps, LoginComponent.object_assign3,
    LoginComponent.state_properties.
  rewrite (right_id_L ∅ (∪)).
  split; [by rewrite lookup_delete_ne, lookup_union_l'|].
  repeat split.
  - rewrite lookup_delete_ne, lookup_union_r by done.
    by rewrite lookup_union_l'.
  - rewrite lookup_delete_ne, lookup_union_r by done.
    by rewrite lookup_union_l'.
  - rewrite lookup_delete_ne, lookup_union_r by done.
    by rewrite lookup_union_l'.
  - rewrite lookup_delete_ne, lookup_union_r by done.
    by rewrite lookup_union_l'.
  - apply lookup_delete_eq.
  - intros name Hname.
    rewrite !not_elem_of_cons in Hname.
    destruct Hname as (? & ? & ? & ? & ? & ? & _).
    rewrite lookup_delete_ne by done.
    rewrite lookup_union_r by by rewrite lookup_insert_ne.
    rewrite lookup_union_r; [done|].
    by rewrite !lookup_insert_ne.
Qed.

Lemma mergeProps_precedence_witness :
  LoginComponent.mergeProps (LoginComponent.mapStateToProps Sample.store)
    (LoginComponent.mapDispatchToProps
       (Sample.services mfaRequired (inl Sample.boom) codeOnSuccess None None
          Sample.confirmed)
       (fun A user => mret tt))
    Sample.own_props !! "className"
  = Sample.own_props !! "className".
Proof.
  apply (mergeProps_precedence _ _ Sample.own_props).
  apply (bool_decide_unpack _). vm_compute. exact I.
Defined.

(** X28. Connected to the store, the form's [onSubmit] runs the
    [authenticate] of [Login.jsx] with the entered username and password and
    with the pool and the config of the store; and the [username] it shows
    is the stored user's name, or the empty string when the store has no
    user. *)
Theorem login_form_properties svc postLoginDispatch state
    (ownProps : gmap string LoginComponent.prop) :
  LoginComponent.mergeProps (LoginComponent.mapStateToProps state)
    (LoginComponent.mapDispatchToProps svc postLoginDispatch) ownProps
    !! "onSubmit"
  = Some (LoginComponent.PropCallback (fun username password =>
            LoginComponent.authenticate svc postLoginDispatch username password
              (LoginComponent.cs_userPool state)
              (LoginComponent.cs_config state)))
  /\ LoginComponent.mergeProps (LoginComponent.mapStateToProps state)
       (LoginComponent.mapDispatchToProps svc postLoginDispatch) ownProps
       !! "username"
     = Some (LoginComponent.PropValue
               (JStr match LoginComponent.cs_user state with
                     | Some user => Username user
                     | None => ""
                     end)).
Proof.
  unfold LoginComponent.mergeProps, LoginComponent.object_assign3,
    LoginComponent.state_properties.
  rewrite (right_id_L ∅ (∪)). split.
  - by rewrite lookup_delete_ne, lookup_union_l'.
  - rewrite lookup_delete_ne, lookup_union_r by done.
    by rewrite lookup_union_l'.
Qed.
